(** * VM provisioning dashboard: fleet-state controller

    A shallow embedding of the browser-side controller in
    [static/js/dashboard.js] (two revisions are kept in that file) and of
    the earlier single-cluster revision of the same script.

    Numbers.  JavaScript numbers are IEEE doubles.  The readings the page
    receives are embedded as rationals [Q], [Math.round] of an exactly
    known value is [floor (x + 1/2)] and [Math.max] is [Qmax].  The RAM
    display divides one byte count by another: its arithmetic is embedded
    in binary64, every quotient and product being rounded to the nearest
    double, ties to even, with [Infinity] and [NaN] as values of their own.
    Integers produced by [parseInt] are embedded as [Z] (exact up to 2^53),
    [NaN] as [None].

    Effects.  [confirm], [alert], [fetch] and the console are recorded in a
    trace; the globals and the parts of the page the script reads or writes
    are fields of a state record; an [await fetch(...)] suspends the
    handler, its rest being run when the response is delivered.  A response
    is delivered together with its body, so [await res.text()] and
    [await res.json()] are not further suspension points.

    Texts.  The markup written into the page and the texts of the dialogs
    are kept as the template that produced them and the values interpolated
    into it, not as the final character string. *)

From Stdlib Require Import ZArith QArith Qround Qminmax Qabs Qpower Lia Lqa.
From Stdlib Require Import String Ascii List.
From Stdlib Require PrimFloat SpecFloat FloatOps Uint63.
From stdpp Require Import base gmap strings list.

Local Open Scope string_scope.
Local Open Scope Z_scope.

(** ** Metrics calculator *)

Module Metrics.

Inductive MetricColor := low | moderate | high.

Definition Qltb (x y : Q) : bool := negb (Qle_bool y x).

(** [function getMetricColor(value)] *)
Definition getMetricColor (value : Q) : MetricColor :=
  if Qltb value 50 then low
  else if Qltb value 80 then moderate
  else high.

(** [function getGaugeWidth(value)]:
    [Math.max(5, (value / 100) * 95 + 5)] *)
Definition getGaugeWidth (value : Q) : Q :=
  Qmax 5 ((value / 100) * 95 + 5)%Q.

(** [Math.round]: nearest integer, halves go up. *)
Definition Math_round (x : Q) : Z := Qfloor (x + (1 # 2))%Q.

(** *** Double arithmetic

    A number is a finite double, standing for the rational it denotes, or
    one of the infinities, or [NaN].  Zero carries no sign: the code
    divides by 1024, and by [maxmemBytes] only when that is above zero. *)
Module Double.

Inductive number := Value (q : Q) | Infinite (negative : bool) | NaN.

(** The integer nearest to [m], a tie going to the even one. *)
Definition round_half_even (m : Q) : Z :=
  let f := Qfloor m in
  match (m - inject_Z f ?= 1 # 2)%Q with
  | Lt => f
  | Gt => f + 1
  | Eq => if Z.even f then f else f + 1
  end.

(** The exponent of the last place of a positive [a]: [a / 2^e] lies in
    [2^52, 2^53), unless [a] is subnormal, where [e] is -1074. *)
Definition exponent (a : Q) : Z :=
  let e0 := Z.log2 (Qnum a) - Z.log2 (Zpos (Qden a)) - 53 in
  let e1 := if Qltb (a / 2 ^ e0) (2 ^ 53) then e0 else e0 + 1 in
  Z.max e1 (-1074).

(** Rounding of an exact result to binary64: 53 significant bits, to the
    nearest, ties to even; [Infinity] from 2^1024 on. *)
Definition of_Q (x : Q) : number :=
  if Qeq_bool x 0 then Value 0
  else
    let a := Qabs x in
    let e := exponent a in
    let v := (inject_Z (round_half_even (a / 2 ^ e)) * 2 ^ e)%Q in
    if Qle_bool (2 ^ 1024) v then Infinite (Qltb x 0)
    else Value (if Qltb x 0 then - v else v)%Q.

(** [x / y] *)
Definition div (x y : number) : number :=
  match x, y with
  | NaN, _ | _, NaN => NaN
  | Infinite _, Infinite _ => NaN
  | Infinite s, Value b => Infinite (xorb s (Qltb b 0))
  | Value _, Infinite _ => Value 0
  | Value a, Value b =>
      if Qeq_bool b 0
      then if Qeq_bool a 0 then NaN else Infinite (Qltb a 0)
      else of_Q (a / b)
  end.

(** [x * y] *)
Definition mul (x y : number) : number :=
  match x, y with
  | NaN, _ | _, NaN => NaN
  | Infinite s, Infinite t => Infinite (xorb s t)
  | Infinite s, Value b | Value b, Infinite s =>
      if Qeq_bool b 0 then NaN else Infinite (xorb s (Qltb b 0))
  | Value a, Value b => of_Q (a * b)
  end.

(** [x > y] *)
Definition gt (x y : number) : bool :=
  match x, y with
  | NaN, _ | _, NaN => false
  | Value a, Value b => Qltb b a
  | Infinite s, Infinite t => negb s && t
  | Infinite s, Value _ => negb s
  | Value _, Infinite t => t
  end.

(** [Math.round(x)]: exact on a double, as its result is one. *)
Definition Math_round (x : number) : number :=
  match x with
  | Value q => Value (inject_Z (Qfloor (q + (1 # 2))))
  | _ => x
  end.

(** The rational a number denotes; the infinities and [NaN] denote none
    and read as 0. *)
Definition to_Q (x : number) : Q :=
  match x with
  | Value q => q
  | _ => 0%Q
  end.

End Double.

Record RamDisplay := mkRamDisplay {
  memMb : Double.number;
  maxmemMb : Double.number;
  pct : Double.number }.

(** [function calculateRamDisplay(memBytes, maxmemBytes)] *)
Definition calculateRamDisplay (memBytes maxmemBytes : Double.number) : RamDisplay :=
  let memMb :=
    Double.Math_round
      (Double.div (Double.div memBytes (Double.Value 1024)) (Double.Value 1024)) in
  let maxmemMb :=
    Double.Math_round
      (Double.div (Double.div maxmemBytes (Double.Value 1024)) (Double.Value 1024)) in
  let pct :=
    if Double.gt maxmemBytes (Double.Value 0)
    then Double.Math_round
           (Double.mul (Double.div memBytes maxmemBytes) (Double.Value 100))
    else Double.Value 0 in
  mkRamDisplay memMb maxmemMb pct.

(** The remap the specification gives for the gauge. *)
Definition clamp (x lo hi : Q) : Q := Qmin hi (Qmax lo x).

Definition gaugeWidth_spec (percent : Q) : Q :=
  (clamp percent 0 100 / 100 * 95 + 5)%Q.

(** [n] is [x] rounded to the nearest integer, halves going up. *)
Definition rounds_to (n : Z) (x : Q) : Prop :=
  (x - (1 # 2) < inject_Z n /\ inject_Z n <= x + (1 # 2))%Q.


End Metrics.

(** ** The machine's doubles

    The kernel evaluates [PrimFloat] operations with the binary64
    arithmetic of the processor.  They are used to check the rounding of
    [Metrics.Double] on sample operands, not to define the controller. *)

Module Binary64.
Import Metrics.

(** Exact below 2^53. *)
Definition of_Z (z : Z) : PrimFloat.float := PrimFloat.of_uint63 (Uint63.of_Z z).

Definition to_number (f : PrimFloat.float) : Double.number :=
  match FloatOps.Prim2SF f with
  | SpecFloat.S754_zero _ => Double.Value 0
  | SpecFloat.S754_infinity s => Double.Infinite s
  | SpecFloat.S754_nan => Double.NaN
  | SpecFloat.S754_finite s m e =>
      Double.Value ((if s then - inject_Z (Zpos m) else inject_Z (Zpos m)) * 2 ^ e)%Q
  end.

Definition same (x y : Double.number) : bool :=
  match x, y with
  | Double.Value a, Double.Value b => Qeq_bool a b
  | Double.Infinite s, Double.Infinite t => Bool.eqb s t
  | Double.NaN, Double.NaN => true
  | _, _ => false
  end.

Definition div_agrees (f g : PrimFloat.float) : bool :=
  same (Double.div (to_number f) (to_number g)) (to_number (PrimFloat.div f g)).

Definition mul_agrees (f g : PrimFloat.float) : bool :=
  same (Double.mul (to_number f) (to_number g)) (to_number (PrimFloat.mul f g)).

(** The operations of [calculateRamDisplay] on two byte counts. *)
Definition ram_agrees (memBytes maxmemBytes : Z) : bool :=
  div_agrees (of_Z memBytes) (of_Z 1024) &&
  div_agrees (PrimFloat.div (of_Z memBytes) (of_Z 1024)) (of_Z 1024) &&
  div_agrees (of_Z memBytes) (of_Z maxmemBytes) &&
  mul_agrees (PrimFloat.div (of_Z memBytes) (of_Z maxmemBytes)) (of_Z 100).

(** [n] successive divisions, or multiplications, by [g]. *)
Fixpoint div_chain_agrees (n : nat) (f g : PrimFloat.float) : bool :=
  match n with
  | O => true
  | S n' => div_agrees f g && div_chain_agrees n' (PrimFloat.div f g) g
  end.

Fixpoint mul_chain_agrees (n : nat) (f g : PrimFloat.float) : bool :=
  match n with
  | O => true
  | S n' => mul_agrees f g && mul_chain_agrees n' (PrimFloat.mul f g) g
  end.

(** [k] GiB used out of [n] GiB, for all [k <= n <= 12]; then some sizes
    that are not whole GiB. *)
Definition sizes : list (Z * Z) :=
  (List.flat_map
     (fun n => List.map (fun k => (Z.of_nat k * 1073741824, Z.of_nat n * 1073741824))
                        (List.seq 1 n))
     (List.seq 1 12) ++
   [(24696061952, 42949672960); (536870912, 1073741824);
    (0, 1073741824); (1, 3); (7, 1000); (123456789, 987654321);
    (8589934591, 17179869184); (3000000000, 7000000000);
    (1099511627775, 1099511627776); (9007199254740991, 33)])%list.

End Binary64.

(** ** JavaScript values used by the handlers *)

Module Js.

(** A form field or data attribute: [None] is [undefined]. *)
Definition truthy (v : option string) : bool :=
  match v with
  | None => false
  | Some s => negb (bool_decide (s = EmptyString))
  end.

Definition falsy (v : option string) : bool := negb (truthy v).

(** [ToString] of a possibly undefined string. *)
Definition ToString (v : option string) : string :=
  match v with None => "undefined" | Some s => s end.

(** Results of [parseInt]: an integer, or [None] for [NaN]. *)
Definition is_space (c : ascii) : bool :=
  let n := nat_of_ascii c in
  (n =? 32)%nat || ((9 <=? n)%nat && (n <=? 13)%nat).

Fixpoint skip_spaces (s : string) : string :=
  match s with
  | String c s' => if is_space c then skip_spaces s' else s
  | EmptyString => s
  end.

Definition digit_val (radix : Z) (c : ascii) : option Z :=
  let n := Z.of_nat (nat_of_ascii c) in
  let v := if (48 <=? n) && (n <=? 57) then Some (n - 48)
           else if (97 <=? n) && (n <=? 122) then Some (n - 87)
           else if (65 <=? n) && (n <=? 90) then Some (n - 55)
           else None in
  match v with
  | Some d => if d <? radix then Some d else None
  | None => None
  end.

(** The longest prefix of digits, most significant first; [acc] is [None]
    until a digit has been read. *)
Fixpoint parse_digits (radix : Z) (s : string) (acc : option Z) : option Z :=
  match s with
  | String c s' =>
      match digit_val radix c with
      | Some d => parse_digits radix s' (Some (radix * default 0 acc + d))
      | None => acc
      end
  | EmptyString => acc
  end.

Definition strip_hex_prefix (s : string) : option string :=
  match s with
  | String "0" (String x s') =>
      if bool_decide (x = "x"%char) || bool_decide (x = "X"%char)
      then Some s' else None
  | _ => None
  end.

(** [parseInt(v)] without a radix: leading white space, an optional sign,
    an optional [0x] prefix, then the longest run of digits. *)
Definition parseInt (v : option string) : option Z :=
  let s := skip_spaces (ToString v) in
  let '(sign, s) :=
    match s with
    | String "-" s' => (-1, s')
    | String "+" s' => (1, s')
    | _ => (1, s)
    end in
  let magnitude :=
    match strip_hex_prefix s with
    | Some s' => parse_digits 16 s' None
    | None => parse_digits 10 s None
    end in
  (fun n => sign * n) <$> magnitude.

(** [x || d] on a number: [NaN] and [0] are falsy. *)
Definition num_or (x : option Z) (d : Z) : Z :=
  match x with
  | Some n => if n =? 0 then d else n
  | None => d
  end.

(** [x < y] and [x === y] with a possibly [NaN] left operand. *)
Definition num_lt (x : option Z) (y : Z) : bool :=
  match x with Some n => n <? y | None => false end.

Definition num_eq (x : option Z) (y : Z) : bool :=
  match x with Some n => n =? y | None => false end.

Definition hex_digit (n : nat) : ascii :=
  ascii_of_nat (if (n <? 10)%nat then 48 + n else 55 + n).

Definition uri_unreserved (c : ascii) : bool :=
  let n := nat_of_ascii c in
  ((48 <=? n) && (n <=? 57))%nat || ((65 <=? n) && (n <=? 90))%nat
  || ((97 <=? n) && (n <=? 122))%nat
  || bool_decide (c ∈ ["-"; "_"; "."; "!"; "~"; "*"; "'"; "("; ")"]%char).

(** [encodeURIComponent] on the UTF-8 bytes of the string. *)
Fixpoint encodeURIComponent (s : string) : string :=
  match s with
  | EmptyString => EmptyString
  | String c s' =>
      if uri_unreserved c then String c (encodeURIComponent s')
      else
        let n := nat_of_ascii c in
        String "%" (String (hex_digit (n / 16)) (String (hex_digit (n mod 16))
          (encodeURIComponent s')))
  end.

End Js.

(** ** The page, the backend and the effects of a handler *)

Module Browser.

(** A VM as the backend lists it.  Members the script reads behind a
    default or a test may be absent ([None]). *)
Record VM := mkVM {
  vmid : Z;
  name : string;
  node : string;
  status : string;
  cpu : option Q;
  mem_bytes : option Q;
  maxmem_bytes : option Q;
  mem : option Q;
  ip : option string }.

(** Body of a response, as [res.json()] yields it. *)
Inductive Payload :=
| NotJson                                (* res.json() rejects *)
| VmsObject (vms : list VM)              (* an object with a vms array *)
| VmsArray (vms : list VM)               (* a bare array *)
| Created (vmid : Z) (node name : string) (* result of a creation *)
| OtherObject.                           (* another object without vms *)

Inductive Response :=
| NetworkFailure (message : string)      (* fetch() rejects *)
| Reply (ok : bool) (text : string) (json : Payload).

Inductive Action := start | shutdown | delete.

#[export] Instance Action_eq_dec : EqDecision Action.
Proof. solve_decision. Defined.

(** The path segment [action] of [/provision/api/vm/<action>]. *)
Definition action_path (a : Action) : string :=
  match a with start => "start" | shutdown => "shutdown" | delete => "delete" end.

(** The label table [actions] of [controlVm]. *)
Definition actions (a : Action) : string :=
  match a with start => "시작" | shutdown => "중지" | delete => "삭제" end.

Inductive Method := GET | POST.

Inductive Body :=
| NoBody
| JsonControl (cluster_name : option string) (node : string) (vmid : Z)
| JsonForm (formData : gmap string string).

Record Request := mkRequest { method : Method; url : string; body : Body }.

(** Dialog texts: one constructor per template of the script, carrying
    the interpolated values. *)
Inductive Message :=
| AskControl (vmid : Z) (label : string)
    (* <vmid> VM을 <label>할까요? *)
| AskDelete (name : string) (vmid : Z)
    (* VM <name> (#<vmid>)을 삭제하시겠습니까? *)
| AskDeleteRunning (name : string)
    (* ⚠️ VM <name>이 실행중입니다! 강제 삭제시 데이터 손실 위험이
       있습니다. 그래도 삭제하시겠습니까? *)
| AskDeleteRunningThenPlain (name : string) (vmid : Z)
    (* VM <name>이 실행중입니다! 강제 삭제하시겠습니까? (데이터 손실 위험),
       followed by the text of AskDelete *)
| ActionDone (label : string)            (* <label> 완료! *)
| ActionRefused (label text : string)    (* <label> 실패: <text> *)
| ActionError (label message : string)   (* <label> 오류: <message> *)
| DiskShrinkRefused (current : Z) (requested : option Z)
    (* ❌ 디스크 축소 불가능! 현재: <current>GB → 신규: <requested>GB ... *)
| AskDiskUnchanged (current : Z)
    (* 디스크 크기 변경 없음 (<current>GB) vCPU/Memory만 변경하시겠습니까? *)
| ConfigDone (formData : gmap string string)
    (* ✅ 설정 변경 완료! vCPU, RAM and disk of the form *)
| ConfigDonePlain                        (* 설정 변경 완료! ... *)
| ConfigFailed (message : string)        (* ❌ 설정 변경 실패: <message> *)
| ConfigFailedPlain (message : string)   (* 설정 변경 실패: <message> *)
| CreateDone (result : Payload) (clusterName : string)
    (* VM 생성 완료! and the fields of the result *)
| CreateDonePlain (result : Payload)     (* VM 생성 완료! ID, node, name *)
| CreateFailed (message : string)        (* ❌ VM 생성 실패: <message> *)
| CreateFailedPlain (message : string).  (* 생성 실패: <message> *)

(** Does the prompt warn that data may be lost (데이터 손실 위험)? *)
Definition warns_data_loss (m : Message) : bool :=
  match m with
  | AskDeleteRunning _ | AskDeleteRunningThenPlain _ _ => true
  | _ => false
  end.

Inductive Event :=
| Confirm (message : Message) (answer : bool)
| Alert (message : Message)
| Fetch (id : nat) (request : Request)
| ConsoleLog (text : string)
| ConsoleError (text : string) (error : string).

(** One entry of the rendered list (a [div.vm-item]). *)
Record Gauges := mkGauges {
  cpuClass : Metrics.MetricColor;
  cpuWidth : Q;
  ramData : Metrics.RamDisplay;
  ramClass : Metrics.MetricColor;
  ramWidth : Q }.

Record VmItem := mkVmItem {
  shown : VM;
  statusClass : string;
  gauges : option Gauges;            (* CPU and RAM bars *)
  memLabel : option Z;               (* the vm-resources span, in MB *)
  startDisabled : bool;
  stopDisabled : bool;
  handlerCluster : option string }.  (* cluster passed by the buttons *)

(** Content of [#vmList]. *)
Inductive VmListView :=
| AsLoaded                           (* markup of the page, untouched *)
| Items (items : list VmItem)
| NoVms                              (* there are no VMs *)
| SelectClusterFirst                 (* select a cluster, then refresh *)
| LoadFailed.                        (* loading the VM list failed *)

Record Stats := mkStats {
  vm_count : nat; total_vms : nat; running_vms : nat; stopped_vms : nat }.

Record Button := mkButton { disabled : bool; textContent : string }.

Record Loading := mkLoading { displayed : bool; loadingText : string }.

Record AutoNodeStatus := mkAutoNodeStatus { autoActive : bool; color : string }.

(** The globals of the script and the elements it reads or writes. *)
Record State := mkState {
  isCreating : bool;
  currentCluster : option string;
  clusterSelect : string;            (* #clusterSelect.value *)
  nodeZoneSelect : string;           (* #nodeZoneSelect.value *)
  clusterDisplay : string;           (* #current-cluster *)
  autoNodeStatus : AutoNodeStatus;   (* #autoNodeStatus *)
  vmList : VmListView;               (* #vmList *)
  stats : Stats;
  submitBtn : Button;                (* #submitBtn *)
  loading : Loading;                 (* #loading *)
  configSubmitBtn : Button;          (* submit button of #configForm *)
  configModalActive : bool;          (* #configModal has class active *)
  currentSize : option string }.     (* #configResize.dataset.currentSize *)

Definition set_isCreating v s :=
  let 'mkState _ b c d e f g h i j k l m := s in mkState v b c d e f g h i j k l m.
Definition set_currentCluster v s :=
  let 'mkState a _ c d e f g h i j k l m := s in mkState a v c d e f g h i j k l m.
Definition set_clusterSelect v s :=
  let 'mkState a b _ d e f g h i j k l m := s in mkState a b v d e f g h i j k l m.
Definition set_nodeZoneSelect v s :=
  let 'mkState a b c _ e f g h i j k l m := s in mkState a b c v e f g h i j k l m.
Definition set_clusterDisplay v s :=
  let 'mkState a b c d _ f g h i j k l m := s in mkState a b c d v f g h i j k l m.
Definition set_autoNodeStatus v s :=
  let 'mkState a b c d e _ g h i j k l m := s in mkState a b c d e v g h i j k l m.
Definition set_vmList v s :=
  let 'mkState a b c d e f _ h i j k l m := s in mkState a b c d e f v h i j k l m.
Definition set_stats v s :=
  let 'mkState a b c d e f g _ i j k l m := s in mkState a b c d e f g v i j k l m.
Definition set_submitBtn v s :=
  let 'mkState a b c d e f g h _ j k l m := s in mkState a b c d e f g h v j k l m.
Definition set_loading v s :=
  let 'mkState a b c d e f g h i _ k l m := s in mkState a b c d e f g h i v k l m.
Definition set_configSubmitBtn v s :=
  let 'mkState a b c d e f g h i j _ l m := s in mkState a b c d e f g h i j v l m.
Definition set_configModalActive v s :=
  let 'mkState a b c d e f g h i j k _ m := s in mkState a b c d e f g h i j k v m.
Definition set_currentSize v s :=
  let 'mkState a b c d e f g h i j k l _ := s in mkState a b c d e f g h i j k l v.

Section World.

(** [K]: what a suspended handler keeps for the rest of its run. *)
Context {K : Type}.

Record Pending := mkPending { p_id : nat; p_request : Request; p_kont : K }.

Record World := mkWorld {
  state : State;
  answers : list bool;     (* the operator's answers to coming confirm()s *)
  trace : list Event;      (* effects so far, oldest first *)
  inflight : list Pending; (* requests awaiting their response *)
  next_id : nat }.

Inductive Outcome (A : Type) :=
| Normal (a : A)
| Thrown (message : string).
#[global] Arguments Normal {A} a.
#[global] Arguments Thrown {A} message.

Definition M (A : Type) : Type := World -> Outcome A * World.

Definition ret {A} (a : A) : M A := fun w => (Normal a, w).

Definition bind {A B} (m : M A) (f : A -> M B) : M B :=
  fun w =>
    match m w with
    | (Normal a, w') => f a w'
    | (Thrown e, w') => (Thrown e, w')
    end.

Definition throw {A} (message : string) : M A := fun w => (Thrown message, w).

(** [try { body } catch (error) { handler error }] *)
Definition try_catch {A} (body : M A) (handler : string -> M A) : M A :=
  fun w =>
    match body w with
    | (Normal a, w') => (Normal a, w')
    | (Thrown e, w') => handler e w'
    end.

(** [try { body } finally { final }] *)
Definition finally {A} (body : M A) (final : M unit) : M A :=
  fun w =>
    match body w with
    | (r, w') =>
        match final w' with
        | (Normal _, w'') => (r, w'')
        | (Thrown e, w'') => (Thrown e, w'')
        end
    end.

Definition gets {A} (f : State -> A) : M A := fun w => (Normal (f (state w)), w).

Definition modify (f : State -> State) : M unit :=
  fun w => (Normal tt,
            mkWorld (f (state w)) (answers w) (trace w) (inflight w) (next_id w)).

Definition emit (e : Event) : M unit :=
  fun w => (Normal tt,
            mkWorld (state w) (answers w) (trace w ++ [e]) (inflight w) (next_id w)).

(** [confirm(message)]: the operator's next answer; a dialog nobody
    answers counts as dismissed. *)
Definition confirm (message : Message) : M bool :=
  fun w =>
    let answer := hd false (answers w) in
    (Normal answer,
     mkWorld (state w) (tl (answers w)) (trace w ++ [Confirm message answer])
             (inflight w) (next_id w)).

Definition alert (message : Message) : M unit := emit (Alert message).

(** [await fetch(...)]: the request leaves and the handler is suspended;
    [k] is run with the response. *)
Definition fetch (request : Request) (k : K) : M unit :=
  fun w =>
    let id := next_id w in
    (Normal tt,
     mkWorld (state w) (answers w) (trace w ++ [Fetch id request])
             (inflight w ++ [mkPending id request k]) (S id)).

(** The world a handler leaves. *)
Definition run {A} (m : M A) (w : World) : World := snd (m w).

Definition find_pending (id : nat) (w : World) : option Pending :=
  List.find (fun p => Nat.eqb (p_id p) id) (inflight w).

Definition remove_pending (id : nat) (w : World) : World :=
  mkWorld (state w) (answers w) (trace w)
          (List.filter (fun p => negb (Nat.eqb (p_id p) id)) (inflight w))
          (next_id w).

(** The response to request [id] arrives: its handler resumes. *)
Definition deliver (resume : K -> Response -> M unit)
    (id : nat) (response : Response) (w : World) : World :=
  match find_pending id w with
  | Some p => run (resume (p_kont p) response) (remove_pending id w)
  | None => w
  end.

(** The requests sent by a run, in order. *)
Definition requests (t : list Event) : list Request :=
  omap (fun e => match e with Fetch _ r => Some r | _ => None end) t.

End World.

#[global] Arguments Pending : clear implicits.
#[global] Arguments World : clear implicits.
#[global] Arguments M : clear implicits.

#[export] Instance M_fmap {K} : FMap (M K) :=
  fun A B f m => bind m (fun a => ret (f a)).

Declare Scope js_scope.
Delimit Scope js_scope with js.
Notation "x ← y ; z" := (bind y (fun x => z))
  (at level 20, y at level 100, z at level 200, only parsing) : js_scope.
Notation "x ;; z" := (bind x (fun _ => z))
  (at level 100, z at level 200, only parsing, right associativity) : js_scope.
Local Open Scope js_scope.

(** [function getStatusClass(status)] *)
Definition getStatusClass (status : string) : string :=
  if bool_decide (status = "running") then "running"
  else if bool_decide (status = "stopped") then "stopped"
  else "other".

(** The four counters [updateStats] writes; [None] is a value that is
    not an array. *)
Definition count_stats (vms : option (list VM)) : Stats :=
  let vmsArray := default [] vms in
  {| vm_count := length vmsArray;
     total_vms := length vmsArray;
     running_vms :=
       length (List.filter (fun v => bool_decide (status v = "running")) vmsArray);
     stopped_vms :=
       length (List.filter (fun v => bool_decide (status v = "stopped")) vmsArray) |}.

(** [function updateStats(vms)] *)
Definition updateStats {K} (vms : option (list VM)) : M K unit :=
  modify (set_stats (count_stats vms)).

(** [data.vms || data], then what [vms.length] and [Array.isArray(vms)] see. *)
Definition vms_of (data : Payload) : option (list VM) :=
  match data with
  | VmsObject vms | VmsArray vms => Some vms
  | _ => None
  end.

(** The entry the two plainer revisions render: status and, when
    [vm.mem] is truthy, [Math.round(vm.mem / 1048576)] MB. *)
Definition render_plain (clusterName : option string) (vm : VM) : VmItem :=
  {| shown := vm;
     statusClass := getStatusClass (status vm);
     gauges := None;
     memLabel :=
       match mem vm with
       | Some m => if Qeq_bool m 0 then None
                   else Some (Metrics.Math_round (m / 1048576)%Q)
       | None => None
       end;
     startDisabled := bool_decide (status vm = "running");
     stopDisabled := negb (bool_decide (status vm = "running"));
     handlerCluster := clusterName |}.

(** [vmList.innerHTML = vms.length ? vms.map(...).join() : ...] *)
Definition render_list (clusterName : option string) (vms : option (list VM))
    : VmListView :=
  match vms with
  | Some ((_ :: _) as l) => Items (render_plain clusterName <$> l)
  | _ => NoVms
  end.

(** A page before any handler has run. *)
Definition initial_state : State :=
  {| isCreating := false; currentCluster := None;
     clusterSelect := EmptyString; nodeZoneSelect := EmptyString;
     clusterDisplay := EmptyString;
     autoNodeStatus := mkAutoNodeStatus false EmptyString;
     vmList := AsLoaded; stats := mkStats 0 0 0 0;
     submitBtn := mkButton false EmptyString;
     loading := mkLoading false EmptyString;
     configSubmitBtn := mkButton false EmptyString;
     configModalActive := false; currentSize := None |}.

Definition initial_world {K} (answers : list bool) : World K :=
  mkWorld initial_state answers [] [] 0.

End Browser.

(** ** dashboard.js, first revision: the backend picks the node *)

Module Auto.
Import Metrics Js Browser.
Local Open Scope js_scope.

(** What each handler keeps across its [await fetch]. *)
Inductive Kont :=
| AfterVmsFetch (clusterName : string)
| AfterControlFetch (action : Action)
| AfterCreateFetch (clusterName : string)
| AfterConfigFetch (formData : gmap string string) (originalText : string).

(** [x || d] on a number that may be absent or zero. *)
Definition q_or (x : option Q) (d : Q) : Q :=
  match x with
  | Some q => if Qeq_bool q 0 then d else q
  | None => d
  end.

(** One [div.vm-item] of [loadVms]; [vm.cpu.toFixed(0)] throws a
    TypeError when [vm.cpu] is not a number.  The RAM percentage is a
    finite double unless the quotient of the two readings overflows, above
    1.7e306; the class and the width of the bar are those of the rational
    it denotes. *)
Definition render_vm (clusterName : string) (vm : VM) : option VmItem :=
  let statusClass := getStatusClass (status vm) in
  match cpu vm with
  | None => None
  | Some c =>
      let cpuClass := getMetricColor c in
      let cpuWidth := getGaugeWidth c in
      let ramData :=
        calculateRamDisplay (Double.Value (q_or (mem_bytes vm) 0))
                            (Double.Value (q_or (maxmem_bytes vm) 1073741824)) in
      let ramClass := getMetricColor (Double.to_Q (pct ramData)) in
      let ramWidth := getGaugeWidth (Double.to_Q (pct ramData)) in
      Some {| shown := vm; statusClass := statusClass;
              gauges := Some (mkGauges cpuClass cpuWidth ramData ramClass ramWidth);
              memLabel := None;
              startDisabled := bool_decide (status vm = "running");
              stopDisabled := negb (bool_decide (status vm = "running"));
              handlerCluster := Some clusterName |}
  end.

(** [async function loadVms()], up to its [await fetch]. *)
Definition loadVms : M Kont unit :=
  clusterName ← gets clusterSelect;
  if falsy (Some clusterName)
  then emit (ConsoleLog "클러스터 미선택, VM 로드 스킵")
  else
    modify (set_currentCluster (Some clusterName));;
    fetch (mkRequest GET ("/provision/api/vms?cluster_name=" ++ clusterName) NoBody)
          (AfterVmsFetch clusterName).

(** The rest of [loadVms]: the [try] body after the fetch, and the [catch]. *)
Definition loadVms_resume (clusterName : string) (res : Response) : M Kont unit :=
  try_catch
    (match res with
     | NetworkFailure message => throw message
     | Reply ok text json =>
         if negb ok then throw text
         else
           match json with
           | NotJson => throw "SyntaxError"
           | data =>
               let vms := vms_of data in
               match vms with
               | Some ((_ :: _) as l) =>
                   match mapM (render_vm clusterName) l with
                   | Some items => modify (set_vmList (Items items))
                   | None => throw "TypeError"
                   end
               | _ => modify (set_vmList NoVms)
               end;;
               updateStats vms
           end
     end)
    (fun error =>
       emit (ConsoleError "VM 목록 로드 실패:" error);;
       modify (set_vmList LoadFailed)).

(** [function controlVm(clusterName, node, vmid, action)] *)
Definition controlVm (clusterName node : string) (vmid : Z) (action : Action)
    : M Kont unit :=
  let needsConfirm := negb (bool_decide (action = delete)) in
  declined ← (if needsConfirm
              then negb <$> confirm (AskControl vmid (actions action))
              else ret false);
  if declined then ret tt
  else
    fetch (mkRequest POST ("/provision/api/vm/" ++ action_path action)
                     (JsonControl (Some clusterName) node vmid))
          (AfterControlFetch action).

(** The [.then] and [.catch] callbacks of [controlVm]. *)
Definition controlVm_resume (action : Action) (res : Response) : M Kont unit :=
  try_catch
    (match res with
     | NetworkFailure message => throw message
     | Reply ok text _ =>
         if negb ok then throw text
         else alert (ActionDone (actions action));; loadVms
     end)
    (fun error => alert (ActionError (actions action) error)).

(** [function confirmDelete(clusterName, node, vmid, name, status)] *)
Definition confirmDelete (clusterName node : string) (vmid : Z)
    (name status : string) : M Kont unit :=
  let message :=
    if bool_decide (status = "running")
    then AskDeleteRunning name
    else AskDelete name vmid in
  confirmed ← confirm message;
  if confirmed then controlVm clusterName node vmid delete else ret tt.

(** [function closeConfigModal()] *)
Definition closeConfigModal : M Kont unit :=
  modify (set_configModalActive false).

(** [async function onClusterChange(clusterName)] *)
Definition onClusterChange (clusterName : string) : M Kont unit :=
  modify (set_currentCluster (Some clusterName));;
  modify (set_clusterDisplay
    (if bool_decide (clusterName = "cluster_a") then "Region A"
     else if bool_decide (clusterName = "cluster_b") then "Region B"
     else EmptyString));;
  modify (set_autoNodeStatus
    (if truthy (Some clusterName)
     then mkAutoNodeStatus true "#10b981"
     else mkAutoNodeStatus false "#6b7280"));;
  if truthy (Some clusterName) then loadVms
  else modify (set_vmList SelectClusterFirst);; updateStats (Some []).

(** The [catch] and [finally] blocks of [handleVmCreate]. *)
Definition create_catch (error : string) : M Kont unit :=
  emit (ConsoleError "VM 생성 실패:" error);;
  alert (CreateFailed error).

Definition create_finally : M Kont unit :=
  modify (set_isCreating false);;
  modify (set_submitBtn
    (mkButton false "🚀 VM 생성 (최저 부하 노드 자동 선택)"));;
  modify (fun s => set_loading (mkLoading false (loadingText (loading s))) s).

(** [async function handleVmCreate(e)], up to its [await fetch]; [form]
    is [Object.fromEntries(new FormData(e.target))].  When the check
    throws, [catch] and [finally] run at once. *)
Definition handleVmCreate (form : gmap string string) : M Kont unit :=
  creating ← gets isCreating;
  if creating then ret tt
  else
    clusterName ← gets clusterSelect;
    modify (set_isCreating true);;
    modify (set_submitBtn (mkButton true "최적 노드 분석 중..."));;
    modify (set_loading
      (mkLoading true "1️⃣ 최저 부하 노드 분석 → 2️⃣ VM 생성 중..."));;
    let formData :=
      <["ssh_public_key" :=
          encodeURIComponent (ToString (form !! "ssh_public_key"))]> form in
    try_catch
      (if falsy (formData !! "cluster_name")
       then throw "클러스터를 선택해주세요."
       else
         fetch (mkRequest POST "/provision/api/vm/create" (JsonForm formData))
               (AfterCreateFetch clusterName))
      (fun error => finally (create_catch error) create_finally).

(** The rest of [handleVmCreate], once the response is there. *)
Definition handleVmCreate_resume (clusterName : string) (res : Response)
    : M Kont unit :=
  finally
    (try_catch
       (match res with
        | NetworkFailure message => throw message
        | Reply ok text json =>
            if negb ok then throw text
            else
              match json with
              | NotJson => throw "SyntaxError"
              | result =>
                  alert (CreateDone result clusterName);;
                  (* form.reset(), then the selection is put back *)
                  modify (set_clusterSelect clusterName);;
                  loadVms
              end
        end)
       create_catch)
    create_finally.

(** The submit listener of [#configForm], up to its [await fetch]. *)
Definition configForm_submit (form : gmap string string) : M Kont unit :=
  let formData :=
    <["ssh_public_key" :=
        encodeURIComponent (ToString (form !! "ssh_public_key"))]> form in
  originalText ← gets (fun s => textContent (configSubmitBtn s));
  dataset ← gets currentSize;
  let currentDiskSize := num_or (parseInt dataset) 20 in
  let newDiskSize := parseInt (formData !! "resize") in
  if num_lt newDiskSize currentDiskSize
  then alert (DiskShrinkRefused currentDiskSize newDiskSize)
  else
    declined ← (if num_eq newDiskSize currentDiskSize
                then negb <$> confirm (AskDiskUnchanged currentDiskSize)
                else ret false);
    if declined then ret tt
    else
      modify (set_configSubmitBtn (mkButton true "설정 적용 중..."));;
      fetch (mkRequest POST "/provision/api/vm/config" (JsonForm formData))
            (AfterConfigFetch formData originalText).

(** The rest of the submit listener. *)
Definition configForm_resume (formData : gmap string string)
    (originalText : string) (res : Response) : M Kont unit :=
  finally
    (try_catch
       (match res with
        | NetworkFailure message => throw message
        | Reply ok text _ =>
            if negb ok then throw text
            else
              alert (ConfigDone formData);;
              closeConfigModal;;
              loadVms
        end)
       (fun error =>
          emit (ConsoleError "설정 변경 실패:" error);;
          alert (ConfigFailed error)))
    (modify (set_configSubmitBtn (mkButton false originalText))).

Definition resume (k : Kont) (res : Response) : M Kont unit :=
  match k with
  | AfterVmsFetch clusterName => loadVms_resume clusterName res
  | AfterControlFetch action => controlVm_resume action res
  | AfterCreateFetch clusterName => handleVmCreate_resume clusterName res
  | AfterConfigFetch formData originalText =>
      configForm_resume formData originalText res
  end.

(** What can happen to the page: the operator acts, the 10 s timer fires,
    or a response arrives. *)
Inductive Input :=
| SelectCluster (clusterName : string)     (* change event of the select *)
| Refresh                                  (* refreshVms() *)
| Tick                                     (* the setInterval callback *)
| ClickStart (clusterName node : string) (vmid : Z)
| ClickStop (clusterName node : string) (vmid : Z)
| ClickDelete (clusterName node : string) (vmid : Z) (name status : string)
| SubmitCreate (form : gmap string string)
| SubmitConfig (form : gmap string string)
| Arrives (id : nat) (res : Response).

Definition react (i : Input) (w : World Kont) : World Kont :=
  match i with
  | SelectCluster c => run (modify (set_clusterSelect c);; onClusterChange c) w
  | Refresh => run loadVms w
  | Tick =>
      run (v ← gets clusterSelect;
           if truthy (Some v) then loadVms else ret tt) w
  | ClickStart c n v => run (controlVm c n v start) w
  | ClickStop c n v => run (controlVm c n v shutdown) w
  | ClickDelete c n v nm st => run (confirmDelete c n v nm st) w
  | SubmitCreate form => run (handleVmCreate form) w
  | SubmitConfig form => run (configForm_submit form) w
  | Arrives id res => deliver resume id res w
  end.

Definition play (inputs : list Input) (w : World Kont) : World Kont :=
  fold_left (fun w i => react i w) inputs w.

End Auto.

(** ** dashboard.js, second revision: the operator picks the node *)

Module Manual.
Import Metrics Js Browser.
Local Open Scope js_scope.

Inductive Kont :=
| AfterVmsFetch (clusterName : string)
| AfterCreateFetch (clusterName nodeZone : string)
| AfterConfigFetch.

(** [async function loadVms()], up to its [await fetch]. *)
Definition loadVms : M Kont unit :=
  clusterName ← gets clusterSelect;
  if falsy (Some clusterName)
  then emit (ConsoleLog "클러스터 미선택, VM 로드 스킵")
  else
    modify (set_currentCluster (Some clusterName));;
    fetch (mkRequest GET ("/provision/api/vms?cluster_name=" ++ clusterName) NoBody)
          (AfterVmsFetch clusterName).

(** The rest of [loadVms]; [res.ok] is not looked at. *)
Definition loadVms_resume (clusterName : string) (res : Response) : M Kont unit :=
  try_catch
    (match res with
     | NetworkFailure message => throw message
     | Reply _ _ NotJson => throw "SyntaxError"
     | Reply _ _ data =>
         let vms := vms_of data in
         modify (set_vmList (render_list (Some clusterName) vms));;
         updateStats vms
     end)
    (fun error =>
       emit (ConsoleError "VM 목록 로드 실패:" error);;
       modify (set_vmList LoadFailed)).

(** [function closeConfigModal()] *)
Definition closeConfigModal : M Kont unit :=
  modify (set_configModalActive false).

Definition create_catch (error : string) : M Kont unit :=
  alert (CreateFailedPlain error).

Definition create_finally : M Kont unit :=
  modify (set_isCreating false);;
  modify (set_submitBtn (mkButton false "VM 생성 시작"));;
  modify (fun s => set_loading (mkLoading false (loadingText (loading s))) s).

(** [async function handleVmCreate(e)], up to its [await fetch]. *)
Definition handleVmCreate (form : gmap string string) : M Kont unit :=
  creating ← gets isCreating;
  if creating then ret tt
  else
    clusterName ← gets clusterSelect;
    nodeZone ← gets nodeZoneSelect;
    modify (set_isCreating true);;
    modify (set_submitBtn (mkButton true "생성 중..."));;
    modify (fun s => set_loading (mkLoading true (loadingText (loading s))) s);;
    let formData := form in
    try_catch
      (if falsy (formData !! "cluster_name")
       then throw "클러스터를 선택해주세요."
       else if falsy (formData !! "node_zone")
       then throw "노드를 선택해주세요."
       else
         fetch (mkRequest POST "/provision/api/vm/create" (JsonForm formData))
               (AfterCreateFetch clusterName nodeZone))
      (fun error => finally (create_catch error) create_finally).

(** The rest of [handleVmCreate]; both selections are put back as they
    were at submission. *)
Definition handleVmCreate_resume (clusterName nodeZone : string)
    (res : Response) : M Kont unit :=
  finally
    (try_catch
       (match res with
        | NetworkFailure message => throw message
        | Reply ok text json =>
            if negb ok then throw text
            else
              match json with
              | NotJson => throw "SyntaxError"
              | result =>
                  alert (CreateDone result clusterName);;
                  modify (set_clusterSelect clusterName);;
                  modify (set_nodeZoneSelect nodeZone);;
                  loadVms
              end
        end)
       create_catch)
    create_finally.

(** [configForm.onsubmit], up to its [await fetch]: the form is sent as
    it is. *)
Definition configForm_onsubmit (form : gmap string string) : M Kont unit :=
  let formData := form in
  fetch (mkRequest POST "/provision/api/vm/config" (JsonForm formData))
        AfterConfigFetch.

Definition configForm_resume (res : Response) : M Kont unit :=
  try_catch
    (match res with
     | NetworkFailure message => throw message
     | Reply ok text _ =>
         if negb ok then throw text
         else
           alert ConfigDonePlain;;
           closeConfigModal;;
           loadVms
     end)
    (fun error => alert (ConfigFailedPlain error)).

Definition resume (k : Kont) (res : Response) : M Kont unit :=
  match k with
  | AfterVmsFetch clusterName => loadVms_resume clusterName res
  | AfterCreateFetch clusterName nodeZone =>
      handleVmCreate_resume clusterName nodeZone res
  | AfterConfigFetch => configForm_resume res
  end.

End Manual.

(** ** The earlier revision: one cluster, no cluster argument *)

Module Legacy.
Import Metrics Js Browser.
Local Open Scope js_scope.

Inductive Kont :=
| AfterVmsFetch
| AfterControlFetch (action : Action)
| AfterCreateFetch.

(** [async function loadVms()], up to its [await fetch]. *)
Definition loadVms : M Kont unit :=
  fetch (mkRequest GET "/provision/api/vms" NoBody) AfterVmsFetch.

(** The rest of [loadVms]; the [catch] only logs. *)
Definition loadVms_resume (res : Response) : M Kont unit :=
  try_catch
    (match res with
     | NetworkFailure message => throw message
     | Reply _ _ NotJson => throw "SyntaxError"
     | Reply _ _ data =>
         let vms := vms_of data in
         modify (set_vmList (render_list None vms));;
         updateStats vms
     end)
    (fun error => emit (ConsoleError EmptyString error)).

(** [async function controlVm(node, vmid, action)], up to its
    [await fetch]: it asks whatever the action. *)
Definition controlVm (node : string) (vmid : Z) (action : Action)
    : M Kont unit :=
  confirmed ← confirm (AskControl vmid (actions action));
  if negb confirmed then ret tt
  else
    fetch (mkRequest POST ("/provision/api/vm/" ++ action_path action)
                     (JsonControl None node vmid))
          (AfterControlFetch action).

Definition controlVm_resume (action : Action) (res : Response) : M Kont unit :=
  try_catch
    (match res with
     | NetworkFailure message => throw message
     | Reply ok text _ =>
         if negb ok then alert (ActionRefused (actions action) text)
         else alert (ActionDone (actions action));; loadVms
     end)
    (fun error => alert (ActionError (actions action) error)).

(** [async function confirmDelete(node, vmid, name, status)] *)
Definition confirmDelete (node : string) (vmid : Z) (name status : string)
    : M Kont unit :=
  let message :=
    if bool_decide (status = "running")
    then AskDeleteRunningThenPlain name vmid
    else AskDelete name vmid in
  confirmed ← confirm message;
  if negb confirmed then ret tt
  else controlVm node vmid delete.

Definition create_catch (error : string) : M Kont unit :=
  alert (CreateFailedPlain error).

Definition create_finally : M Kont unit :=
  modify (set_isCreating false);;
  modify (set_submitBtn (mkButton false "VM 생성 시작"));;
  modify (fun s => set_loading (mkLoading false (loadingText (loading s))) s).

(** [async function handleVmCreate(e)], up to its [await fetch]. *)
Definition handleVmCreate (form : gmap string string) : M Kont unit :=
  creating ← gets isCreating;
  if creating then ret tt
  else
    modify (set_isCreating true);;
    modify (set_submitBtn (mkButton true "생성 중..."));;
    modify (fun s => set_loading (mkLoading true (loadingText (loading s))) s);;
    let formData := form in
    try_catch
      (if falsy (formData !! "node_zone")
       then throw "노드를 선택해주세요."
       else
         fetch (mkRequest POST "/provision/api/vm/create" (JsonForm formData))
               AfterCreateFetch)
      (fun error => finally (create_catch error) create_finally).

(** The rest of [handleVmCreate]; the fields [form.reset()] clears come
    with the next submission. *)
Definition handleVmCreate_resume (res : Response) : M Kont unit :=
  finally
    (try_catch
       (match res with
        | NetworkFailure message => throw message
        | Reply ok text json =>
            if negb ok then throw text
            else
              match json with
              | NotJson => throw "SyntaxError"
              | result => alert (CreateDonePlain result);; loadVms
              end
        end)
       create_catch)
    create_finally.

Definition resume (k : Kont) (res : Response) : M Kont unit :=
  match k with
  | AfterVmsFetch => loadVms_resume res
  | AfterControlFetch action => controlVm_resume action res
  | AfterCreateFetch => handleVmCreate_resume res
  end.

End Legacy.

(** ** Vocabulary of the properties *)

Module Observe.
Import Metrics Js Browser.

Section AnyKont.
Context {K : Type}.

(** Is the request a VM mutation (start, shutdown or delete) for [v]? *)
Definition mutates (v : Z) (r : Request) : bool :=
  match body r with
  | JsonControl _ _ v' => v' =? v
  | _ => false
  end.

(** Number of mutations for VM [v] that await their response. *)
Definition pending_mutations (v : Z) (w : World K) : nat :=
  length (List.filter (fun p => mutates v (p_request p)) (inflight w)).

(** The world after the effects [es] and nothing else. *)
Definition after_events (es : list Event) (w : World K) : World K :=
  mkWorld (state w) (answers w) (trace w ++ es) (inflight w) (next_id w).

(** The world after one answered dialog [e] and nothing else. *)
Definition after_dialog (e : Event) (w : World K) : World K :=
  mkWorld (state w) (tl (answers w)) (trace w ++ [e]) (inflight w) (next_id w).

End AnyKont.

(** The error the [try] block of the first revision's [loadVms] ends
    with, if it does. *)
Definition auto_refresh_error (clusterName : string) (res : Response)
    : option string :=
  match res with
  | NetworkFailure message => Some message
  | Reply false text _ => Some text
  | Reply true _ NotJson => Some "SyntaxError"
  | Reply true _ data =>
      match vms_of data with
      | Some l =>
          match mapM (Auto.render_vm clusterName) l with
          | Some _ => None
          | None => Some "TypeError"
          end
      | None => None
      end
  end.

(** The same for the earlier revision, which does not look at [res.ok]
    and renders without reading [vm.cpu]. *)
Definition legacy_refresh_error (res : Response) : option string :=
  match res with
  | NetworkFailure message => Some message
  | Reply _ _ NotJson => Some "SyntaxError"
  | Reply _ _ _ => None
  end.

(** The requests of the first revision. *)
Definition control_request (clusterName node : string) (vmid : Z)
    (action : Action) : Request :=
  mkRequest POST ("/provision/api/vm/" ++ action_path action)
            (JsonControl (Some clusterName) node vmid).

Definition vms_request (clusterName : string) : Request :=
  mkRequest GET ("/provision/api/vms?cluster_name=" ++ clusterName) NoBody.

(** The request of the earlier revision, which names no cluster. *)
Definition legacy_control_request (node : string) (vmid : Z)
    (action : Action) : Request :=
  mkRequest POST ("/provision/api/vm/" ++ action_path action)
            (JsonControl None node vmid).

(** The form as the first revision sends it: the SSH key is URI-encoded. *)
Definition encoded (form : gmap string string) : gmap string string :=
  <["ssh_public_key" :=
      encodeURIComponent (ToString (form !! "ssh_public_key"))]> form.

Definition config_request (formData : gmap string string) : Request :=
  mkRequest POST "/provision/api/vm/config" (JsonForm formData).

Definition create_request (formData : gmap string string) : Request :=
  mkRequest POST "/provision/api/vm/create" (JsonForm formData).

(** The current disk size the first revision compares with:
    [parseInt(dataset.currentSize) || 20]. *)
Definition current_disk {K} (w : World K) : Z :=
  num_or (parseInt (currentSize (state w))) 20.

(** The world once the first revision has sent a reconfiguration, after
    the effects [es]. *)
Definition config_sent (es : list Event) (answers' : list bool)
    (form : gmap string string) (w : World Auto.Kont) : World Auto.Kont :=
  mkWorld (set_configSubmitBtn (mkButton true "설정 적용 중...") (state w))
    answers'
    (trace w ++ es ++ [Fetch (next_id w) (config_request (encoded form))])
    (inflight w ++
       [mkPending (next_id w) (config_request (encoded form))
          (Auto.AfterConfigFetch (encoded form)
             (textContent (configSubmitBtn (state w))))])
    (S (next_id w)).

(** The page once a creation has failed before any request: the [catch]
    and [finally] blocks have run after the effects [es]. *)
Definition create_failed {K} (button : string) (about : string)
    (es : list Event) (w : World K) : World K :=
  mkWorld
    (set_loading (mkLoading false about)
       (set_submitBtn (mkButton false button) (set_isCreating false (state w))))
    (answers w) (trace w ++ es) (inflight w) (next_id w).

(** The page once a creation request has left. *)
Definition create_sent {K} (button : string) (about : string)
    (request : Request) (k : K) (w : World K) : World K :=
  mkWorld
    (set_loading (mkLoading true about)
       (set_submitBtn (mkButton true button) (set_isCreating true (state w))))
    (answers w) (trace w ++ [Fetch (next_id w) request])
    (inflight w ++ [mkPending (next_id w) request k]) (S (next_id w)).

(** A page whose configuration dialog holds 20 GB as the current size. *)
Definition page_with_disk_20 {K} : World K :=
  mkWorld (set_currentSize (Some "20") initial_state) [true] [] [] 0.

(** The prompt of [confirmDelete] in the first revision. *)
Definition delete_prompt (name : string) (vmid : Z) (status : string) : Message :=
  if bool_decide (status = "running") then AskDeleteRunning name
  else AskDelete name vmid.

(** The array a response carries, as [loadVms] reads it. *)
Definition response_vms (res : Response) : option (list VM) :=
  match res with
  | Reply _ _ data => vms_of data
  | NetworkFailure _ => None
  end.

(** The list the first revision shows for a response it could render. *)
Definition auto_view (clusterName : string) (res : Response) : VmListView :=
  match response_vms res with
  | Some ((_ :: _) as l) =>
      match mapM (Auto.render_vm clusterName) l with
      | Some items => Items items
      | None => LoadFailed
      end
  | _ => NoVms
  end.

(** Sample data for the closed examples. *)
Definition web : VM :=
  mkVM 101 "web" "pve1" "running" (Some (25 # 2)) (Some 536870912%Q)
       (Some 1073741824%Q) None None.

Definition db : VM :=
  mkVM 202 "db" "pve2" "stopped" (Some 0%Q) None None None None.

Definition ok_vms (l : list VM) : Response := Reply true EmptyString (VmsObject l).

(** Two clicks on the start button of VM 101, both confirmed, no response yet. *)
Definition double_start : list Auto.Input :=
  [Auto.ClickStart "cluster_a" "pve1" 101; Auto.ClickStart "cluster_a" "pve1" 101].

(** Refresh A is issued for cluster A, the selection moves to cluster B,
    which issues refresh B; B is answered first, A last. *)
Definition late_answer : list Auto.Input :=
  [Auto.SelectCluster "cluster_a"; Auto.SelectCluster "cluster_b";
   Auto.Arrives 1 (ok_vms [db]); Auto.Arrives 0 (ok_vms [web])].

(** Cluster A is shown with its VM, then a refresh fails on the network. *)
Definition shown_then : list Auto.Input :=
  [Auto.SelectCluster "cluster_a"; Auto.Arrives 0 (ok_vms [web]); Auto.Refresh].

Definition failed_refresh : list Auto.Input :=
  shown_then ++ [Auto.Arrives 1 (NetworkFailure "Failed to fetch")].

(** Cluster A is shown, then the running VM 101 is deleted and the
    operator confirms. *)
Definition confirmed_delete : list Auto.Input :=
  [Auto.SelectCluster "cluster_a"; Auto.Arrives 0 (ok_vms [web]);
   Auto.ClickDelete "cluster_a" "pve1" 101 "web" "running"].

(** The same, and the backend refuses the delete. *)
Definition refused_delete : list Auto.Input :=
  confirmed_delete ++ [Auto.Arrives 1 (Reply false "VM is locked" OtherObject)].

(** The prompt of [confirmDelete] in the earlier revision. *)
Definition legacy_delete_prompt (name : string) (vmid : Z) (status : string)
    : Message :=
  if bool_decide (status = "running") then AskDeleteRunningThenPlain name vmid
  else AskDelete name vmid.

End Observe.

(** ** Vocabulary of the further properties *)

Module Watch.
Import Metrics Js Browser.

(** The three gauge classes, from calm to loaded. *)
Definition color_rank (c : MetricColor) : nat :=
  match c with low => 0 | moderate => 1 | high => 2 end.

(** The VMs whose status badge gets the class [other]. *)
Definition other_vms (vms : list VM) : nat :=
  length (List.filter (fun v => bool_decide (getStatusClass (status v) = "other")) vms).

(** The label [onClusterChange] shows for a cluster. *)
Definition region_label (clusterName : string) : string :=
  if bool_decide (clusterName = "cluster_a") then "Region A"
  else if bool_decide (clusterName = "cluster_b") then "Region B"
  else EmptyString.

(** Number of [confirm] dialogs in a trace. *)
Definition prompts (t : list Event) : nat :=
  length (List.filter (fun e => match e with Confirm _ _ => true | _ => false end) t).

(** Does the response carry a body the handler can read as JSON, with an
    OK status? *)
Definition ok_json (res : Response) : bool :=
  match res with
  | Reply true _ NotJson => false
  | Reply true _ _ => true
  | _ => false
  end.

Definition ok_status (res : Response) : bool :=
  match res with
  | Reply true _ _ => true
  | _ => false
  end.

(** The text the handlers report for a response that is not OK. *)
Definition failure_text (res : Response) : string :=
  match res with
  | NetworkFailure message => message
  | Reply false text _ => text
  | Reply true _ _ => "SyntaxError"
  end.

(** Is the pending request a creation of the first revision? *)
Definition is_create (p : Pending Auto.Kont) : bool :=
  match p_kont p with
  | Auto.AfterCreateFetch _ => true
  | _ => false
  end.

(** Creations that await their response. *)
Definition creations_in_flight (w : World Auto.Kont) : nat :=
  length (List.filter is_create (inflight w)).

(** Pending requests carry distinct numbers, all below the next one. *)
Definition well_numbered (w : World Auto.Kont) : Prop :=
  Forall (fun p => (p_id p < next_id w)%nat) (inflight w) /\
  NoDup (List.map p_id (inflight w)).

(** The creation flag tells whether a creation is pending, and there is
    never more than one. *)
Definition create_guarded (w : World Auto.Kont) : Prop :=
  well_numbered w /\
  creations_in_flight w = (if isCreating (state w) then 1 else 0)%nat.

(** From [w] to [w'] at most one request left, and it is no creation. *)
Definition sent_at_most_one_other (w w' : World Auto.Kont) : Prop :=
  (inflight w' = inflight w /\ next_id w' = next_id w) \/
  (exists r k,
     (forall c, k <> Auto.AfterCreateFetch c) /\
     inflight w' = (inflight w ++ [mkPending (next_id w) r k])%list /\
     next_id w' = S (next_id w)).

End Watch.
(** ** Decimal text of an integer *)

From Stdlib Require DecimalString DecimalPos.

Module JsNumber.

(** [String(n)] for an integer [n] (exact up to 2^53). *)
Definition Number_toString (n : Z) : string :=
  DecimalString.NilZero.string_of_int (Z.to_int n).

End JsNumber.

(** ** dashboard.js, first revision: the configuration dialog *)

Module ConfigDialog.
Import Metrics Js Browser JsNumber.
Local Open Scope js_scope.

(** The object [/config] answers with; a member may be absent. *)
Record Config := mkConfig {
  vcpu : option Z;
  memory : option Z;
  disk_size : option Z;
  disk_size_raw : option string }.

(** The answer to the configuration request; [json] is [None] when the
    body is not JSON. *)
Inductive ConfigResponse :=
| ConfigUnreachable (message : string)
| ConfigReply (ok : bool) (text : string) (json : option Config).

(** Content of [#currentConfig]. *)
Inductive CurrentConfig :=
| ConfigAsLoaded                     (* markup of the page, untouched *)
| ConfigLoading                      (* 현재 설정 로드 중... *)
| ConfigShown (vcpu memMB memGB : Z) (disk : string)
| ConfigLoadFailed.                  (* ⚠️ 설정 로드 실패 - 기본값 사용 *)

(** The elements of the dialog besides its class and the stored size,
    which are fields of the page state. *)
Record Dialog := mkDialog {
  modalTitle : string;
  configCluster : string;
  configNode : string;
  configVmid : string;
  configVcpu : string;
  configMemory : string;
  configResize : string;
  currentConfig : CurrentConfig;
  configLoading : bool }.

Inductive Kont := AfterConfigLoad.

(** [x || d] on a string that may be absent or empty. *)
Definition str_or (x : option string) (d : string) : string :=
  if truthy x then default d x else d.

(** [async function openConfigModal(clusterName, node, vmid, name)], up
    to its [await fetch]. *)
Definition openConfigModal (clusterName node : string) (vmid : Z)
    (name : string) (d : Dialog) : M Kont Dialog :=
  modify (set_configModalActive true);;
  let d :=
    mkDialog (name ++ " 설정 변경") clusterName node (Number_toString vmid)
             (configVcpu d) (configMemory d) (configResize d)
             ConfigLoading true in
  fetch (mkRequest GET
           ("/provision/api/vm/" ++ clusterName ++ "/" ++ node ++ "/"
            ++ Number_toString vmid ++ "/config") NoBody)
        AfterConfigLoad;;
  ret d.

(** The rest of [openConfigModal]: the [try] body after the fetch, the
    [catch] and the [finally]. *)
Definition openConfigModal_resume (res : ConfigResponse) (d : Dialog)
    : M Kont Dialog :=
  d ← try_catch
        (match res with
         | ConfigUnreachable message => throw message
         | ConfigReply ok text json =>
             if negb ok then throw text
             else
               match json with
               | None => throw "SyntaxError"
               | Some config =>
                   modify (set_currentSize
                     (Some (Number_toString (num_or (disk_size config) 20))));;
                   let memMB := num_or (memory config) 1024 in
                   let memGB := Math_round (inject_Z memMB / 1024)%Q in
                   ret (mkDialog (modalTitle d) (configCluster d) (configNode d)
                          (configVmid d)
                          (Number_toString (num_or (vcpu config) 1))
                          (Number_toString (num_or (memory config) 1024))
                          (Number_toString (num_or (disk_size config) 20))
                          (ConfigShown (num_or (vcpu config) 1) memMB memGB
                             (str_or (disk_size_raw config) "20G"))
                          (configLoading d))
               end
         end)
        (fun error =>
           emit (ConsoleError "설정 로드 실패:" error);;
           ret (mkDialog (modalTitle d) (configCluster d) (configNode d)
                  (configVmid d) (configVcpu d) (configMemory d)
                  (configResize d) ConfigLoadFailed (configLoading d)));
  ret (mkDialog (modalTitle d) (configCluster d) (configNode d)
         (configVmid d) (configVcpu d) (configMemory d) (configResize d)
         (currentConfig d) false).

(** The dialog is opened for a VM and the answer to its request arrives,
    with nothing in between. *)
Definition opened (clusterName node : string) (vmid : Z) (name : string)
    (res : ConfigResponse) (dw : Dialog * World Kont) : Dialog * World Kont :=
  match openConfigModal clusterName node vmid name (fst dw) (snd dw) with
  | (Normal d1, w1) =>
      match openConfigModal_resume res d1
              (remove_pending (next_id (snd dw)) w1) with
      | (Normal d2, w2) => (d2, w2)
      | (Thrown _, w2) => (d1, w2)
      end
  | (Thrown _, w1) => (fst dw, w1)
  end.

(** Does the answer carry a configuration the dialog can show? *)
Definition config_of (res : ConfigResponse) : option Config :=
  match res with
  | ConfigReply true _ (Some config) => Some config
  | _ => None
  end.

(** A dialog nobody has opened yet. *)
Definition closed_dialog : Dialog :=
  mkDialog EmptyString EmptyString EmptyString EmptyString EmptyString
           EmptyString EmptyString ConfigAsLoaded false.

End ConfigDialog.

(** ** static/js/use-storage.js: the login state in local storage *)

Module Storage.
Import Js.

(** The frozen table [storageKeys]. *)
Definition IS_LOGIN : string := "isLogin".
Definition USER_NAME : string := "userName".

(** [Object.values(storageKeys)] *)
Definition storageKeys_values : list string := [IS_LOGIN; USER_NAME].

(** What [getStorage] returns; [None] is [null]. *)
Record LoginState := mkLoginState {
  isLogin : option string;
  userName : option string }.

(** [setStorage(isLogin, userName)]; [setItem] stores the text of the
    boolean. *)
Definition setStorage (isLogin : bool) (userName : string)
    (localStorage : gmap string string) : gmap string string :=
  <[USER_NAME := userName]>
    (<[IS_LOGIN := if isLogin then "true" else "false"]> localStorage).

(** [getStorage()], without its console line. *)
Definition getStorage (localStorage : gmap string string) : LoginState :=
  {| isLogin := localStorage !! IS_LOGIN;
     userName := localStorage !! USER_NAME |}.

(** [removeStorage()] *)
Definition removeStorage (localStorage : gmap string string)
    : gmap string string :=
  fold_left (fun ls key => delete key ls) storageKeys_values localStorage.

(** [logout()] *)
Definition logout (localStorage : gmap string string) : gmap string string :=
  removeStorage localStorage.

End Storage.

(** ** dashboard.js, second revision: the node picker *)

Module NodePicker.
Import Js Browser.
Local Open Scope js_scope.

(** A node as [/nodes/<cluster>] lists it. *)
Record Node := mkNode {
  value : string;
  label : string;
  status : string;
  cpu : Q;
  mem_usage : Q;
  mem_used_gb : Q;
  mem_total_gb : Q;
  vm_count : Z }.

(** An [option] element of [#nodeZoneSelect]. *)
Inductive NodeOption :=
| Placeholder                                   (* 노드를 선택하세요, value empty *)
| LoadFailedOption                              (* 노드 목록 로드 실패, value empty *)
| NodeChoice (value label status : string).

(** Content of [#nodeStatus]. *)
Inductive NodeStatus :=
| NoStatus
| StatusOf (node : Node) (color : string).

(** The cache [nodesData] and the elements of the picker. *)
Record Picker := mkPicker {
  nodesData : list Node;
  options : list NodeOption;
  selectDisabled : bool;
  nodeStatus : NodeStatus }.

(** The answer to the node request: [nodes] is [data.nodes], [None] when
    the object has none. *)
Inductive NodesResponse :=
| NodesUnreachable (message : string)
| NodesNotJson
| NodesReply (nodes : option (list Node)).

Inductive Kont := AfterNodesFetch.

(** [async function loadNodes(clusterName)], up to its [await fetch]. *)
Definition loadNodes (clusterName : string) : M Kont unit :=
  if falsy (Some clusterName) then ret tt
  else
    fetch (mkRequest GET ("/provision/api/nodes/" ++ clusterName) NoBody)
          AfterNodesFetch.

(** The rest of [loadNodes]; [res.ok] is not looked at. *)
Definition loadNodes_resume (res : NodesResponse) (p : Picker) : M Kont Picker :=
  try_catch
    (match res with
     | NodesUnreachable message => throw message
     | NodesNotJson => throw "SyntaxError"
     | NodesReply nodes =>
         let nodesData := default [] nodes in
         ret (mkPicker nodesData
                (Placeholder ::
                 List.map (fun node => NodeChoice (value node) (label node)
                                                  (status node)) nodesData)
                false (nodeStatus p))
     end)
    (fun error =>
       emit (ConsoleError "노드 목록 로드 실패:" error);;
       ret (mkPicker (nodesData p) [LoadFailedOption] (selectDisabled p)
                     (nodeStatus p))).

(** [node.cpu > 80 ? ... : node.cpu > 50 ? ... : ...] *)
Definition status_color (cpu : Q) : string :=
  if Metrics.Qltb 80 cpu then "#ef4444"
  else if Metrics.Qltb 50 cpu then "#f59e0b"
  else "#10b981".

(** The change listener of [#nodeZoneSelect]; [selected] is [this.value]. *)
Definition onNodeChange (selected : string) (p : Picker) : Picker :=
  if truthy (Some selected) then
    match List.find (fun n => bool_decide (value n = selected)) (nodesData p) with
    | Some node =>
        mkPicker (nodesData p) (options p) (selectDisabled p)
                 (StatusOf node (status_color (cpu node)))
    | None => p
    end
  else mkPicker (nodesData p) (options p) (selectDisabled p) NoStatus.

(** The value an option submits. *)
Definition option_value (o : NodeOption) : string :=
  match o with
  | NodeChoice value _ _ => value
  | _ => EmptyString
  end.

End NodePicker.

(** Splits the cases of a handler that sends at most one request. *)
Ltac quiet_cases :=
  repeat match goal with
         | |- context [if ?b then _ else _] => destruct b
         | |- context [match ?l with [] => _ | _ :: _ => _ end] => destruct l
         end;
  (split; [reflexivity |]);
  first [ left; split; reflexivity
        | right;
          refine (ex_intro _ _ (ex_intro _ _ (conj _ (conj eq_refl eq_refl))));
          intros ?; discriminate ].


(** Runs the monadic code of a handler on the world of the goal. *)
Ltac run_js :=
  cbv beta iota zeta delta
    [Browser.run Browser.bind Browser.ret Browser.throw Browser.try_catch
     Browser.finally Browser.gets Browser.modify Browser.emit Browser.confirm
     Browser.alert Browser.fetch fmap Browser.M_fmap Browser.updateStats
     snd fst hd tl negb
     Browser.state Browser.answers Browser.trace Browser.inflight
     Browser.next_id Observe.after_dialog Observe.after_events].

(** * Properties *)

Local Open Scope list_scope.

(** ** Metrics *)

Section MetricsFacts.
Import Metrics.
Local Open Scope Q_scope.

Lemma Qltb_lt (x y : Q) : Qltb x y = true <-> x < y.
Proof.
  unfold Qltb. rewrite negb_true_iff, <- not_true_iff_false, Qle_bool_iff.
  split; [apply Qnot_le_lt | apply Qlt_not_le].
Qed.

Lemma Qltb_ge (x y : Q) : Qltb x y = false <-> y <= x.
Proof.
  unfold Qltb. rewrite negb_false_iff. apply Qle_bool_iff.
Qed.

Lemma remap_scale (p : Q) : p / 100 * 95 == p * (19 # 20).
Proof. field. Qed.

(** The gauge value is the linear remap wherever it is at least 5. *)
Lemma getGaugeWidth_linear (p : Q) :
  0 <= p -> getGaugeWidth p == p / 100 * 95 + 5.
Proof.
  intros Hp. unfold getGaugeWidth.
  apply Q.max_r. rewrite remap_scale. lra.
Qed.

Lemma getGaugeWidth_floor (p : Q) : p <= 0 -> getGaugeWidth p == 5.
Proof.
  intros Hp. unfold getGaugeWidth.
  apply Q.max_l. rewrite remap_scale. lra.
Qed.


Lemma rounds_to_compat (n : Z) (x y : Q) : x == y -> rounds_to n x -> rounds_to n y.
Proof. unfold rounds_to. intros E [H1 H2]. split; lra. Qed.

End MetricsFacts.

(** ** Double arithmetic of the RAM display *)

Section DoubleFacts.
Import Metrics.
Import Double.
Local Open Scope Q_scope.








Lemma exponent_min (a : Q) : (-1074 <= exponent a)%Z.
Proof. unfold exponent. apply Z.le_max_r. Qed.













(** The rounding agrees with the processor's on the RAM computations of
    the sample sizes, and all the way down through the subnormal numbers
    to zero and up to [Infinity]. *)
Lemma Double_agrees_with_binary64 :
  forallb (fun s => Binary64.ram_agrees (fst s) (snd s)) Binary64.sizes = true /\
  Binary64.div_chain_agrees 56
    (PrimFloat.div (Binary64.of_Z 1) (Binary64.of_Z 3))
    (Binary64.of_Z 1000003) = true /\
  Binary64.mul_chain_agrees 56
    (PrimFloat.div (Binary64.of_Z 1) (Binary64.of_Z 3))
    (Binary64.of_Z 1000003) = true.
Proof. vm_compute. repeat split. Qed.

End DoubleFacts.

Section MetricsClaims.
Import Metrics.
Local Open Scope Q_scope.

(** C7, as stated, fails above 100: at 200 the bar is 195 wide, where the
    clamped remap gives 100. *)
Lemma getGaugeWidth_200_not_clamped :
  (getGaugeWidth 200 == 195) /\ (gaugeWidth_spec 200 == 100) /\
  (getGaugeWidth 200 == gaugeWidth_spec 200 -> False).
Proof. vm_compute. repeat split; discriminate. Qed.

(** C7, amended: only the floor of 5 is enforced.  For every percent up
    to 100 (negative ones included) the width is
    clamp(percent, 0, 100) / 100 * 95 + 5, so 0 gives 5 and 100 gives 100;
    above 100 the width is percent / 100 * 95 + 5, which exceeds 100. *)
Theorem getGaugeWidth_clamps_below_only (percent : Q) :
  (percent <= 100 -> getGaugeWidth percent == gaugeWidth_spec percent) /\
  (100 < percent ->
     getGaugeWidth percent == percent / 100 * 95 + 5 /\
     100 < getGaugeWidth percent) /\
  getGaugeWidth 0 == 5 /\ getGaugeWidth 100 == 100.
Proof.
  repeat split; try (vm_compute; reflexivity).
  - intros Hle. unfold gaugeWidth_spec, clamp.
    destruct (Qlt_le_dec percent 0) as [Hneg | Hpos].
    + rewrite getGaugeWidth_floor by lra.
      rewrite (Q.max_l 0 percent) by lra.
      rewrite Q.min_r by lra. reflexivity.
    + rewrite getGaugeWidth_linear by lra.
      rewrite (Q.max_r 0 percent) by lra.
      rewrite Q.min_r by lra. reflexivity.
  - apply getGaugeWidth_linear. lra.
  - rewrite getGaugeWidth_linear by lra.
    rewrite remap_scale. lra.
Qed.

Lemma getGaugeWidth_clamps_below_only_witness :
  getGaugeWidth (-7) == gaugeWidth_spec (-7) /\
  getGaugeWidth 150 == 150 / 100 * 95 + 5.
Proof.
  split.
  - apply (proj1 (getGaugeWidth_clamps_below_only (-7))). vm_compute. discriminate.
  - apply (proj1 (proj2 (getGaugeWidth_clamps_below_only 150))). reflexivity.
Defined.

(** C8: on the interval from 0 to 100 the gauge width stays between 5
    and 100 and never decreases as the percentage grows. *)
Theorem getGaugeWidth_range_monotone (p1 p2 : Q) :
  0 <= p1 -> p1 <= p2 -> p2 <= 100 ->
  (5 <= getGaugeWidth p1 /\ getGaugeWidth p1 <= 100) /\
  (5 <= getGaugeWidth p2 /\ getGaugeWidth p2 <= 100) /\
  getGaugeWidth p1 <= getGaugeWidth p2.
Proof.
  intros H0 H12 H100.
  rewrite (getGaugeWidth_linear p1), (getGaugeWidth_linear p2) by lra.
  rewrite !remap_scale.
  repeat split; lra.
Qed.

Lemma getGaugeWidth_range_monotone_witness :
  (5 <= getGaugeWidth 20 /\ getGaugeWidth 20 <= 100) /\
  (5 <= getGaugeWidth 70 /\ getGaugeWidth 70 <= 100) /\
  getGaugeWidth 20 <= getGaugeWidth 70.
Proof.
  apply (getGaugeWidth_range_monotone 20 70); vm_compute; discriminate.
Defined.



End MetricsClaims.

(** ** Start, shutdown and delete *)

Section ControlClaims.
Import Metrics Js Browser Observe.

Lemma not_delete_needs_confirm (action : Action) :
  action <> delete -> negb (bool_decide (action = delete)) = true.
Proof. intros H. rewrite bool_decide_eq_false_2; [reflexivity | exact H]. Qed.

(** What [controlVm] of the first revision does for start and shutdown,
    by the operator's answer. *)
Lemma auto_controlVm_run (w : World Auto.Kont) (clusterName node : string)
    (vmid : Z) (action : Action) :
  action <> delete ->
  run (Auto.controlVm clusterName node vmid action) w =
    if hd false (answers w)
    then mkWorld (state w) (tl (answers w))
           (trace w ++ [Confirm (AskControl vmid (actions action)) true;
                        Fetch (next_id w)
                              (control_request clusterName node vmid action)])
           (inflight w ++
              [mkPending (next_id w)
                         (control_request clusterName node vmid action)
                         (Auto.AfterControlFetch action)])
           (S (next_id w))
    else after_dialog (Confirm (AskControl vmid (actions action)) false) w.
Proof.
  intros Hne. unfold Auto.controlVm.
  rewrite (not_delete_needs_confirm action Hne).
  destruct w as [st ans tr inf nid]; destruct ans as [|[] rest];
    run_js; rewrite <- ?app_assoc; reflexivity.
Qed.

Lemma legacy_controlVm_run (w : World Legacy.Kont) (node : string)
    (vmid : Z) (action : Action) :
  run (Legacy.controlVm node vmid action) w =
    if hd false (answers w)
    then mkWorld (state w) (tl (answers w))
           (trace w ++ [Confirm (AskControl vmid (actions action)) true;
                        Fetch (next_id w)
                              (legacy_control_request node vmid action)])
           (inflight w ++
              [mkPending (next_id w) (legacy_control_request node vmid action)
                         (Legacy.AfterControlFetch action)])
           (S (next_id w))
    else after_dialog (Confirm (AskControl vmid (actions action)) false) w.
Proof.
  unfold Legacy.controlVm.
  destruct w as [st ans tr inf nid]; destruct ans as [|[] rest];
    run_js; rewrite <- ?app_assoc; reflexivity.
Qed.

(** [controlVm delete] of the first revision sends without asking. *)
Lemma auto_controlVm_delete_run (w : World Auto.Kont)
    (clusterName node : string) (vmid : Z) :
  run (Auto.controlVm clusterName node vmid delete) w =
    mkWorld (state w) (answers w)
      (trace w ++ [Fetch (next_id w)
                         (control_request clusterName node vmid delete)])
      (inflight w ++
         [mkPending (next_id w) (control_request clusterName node vmid delete)
                    (Auto.AfterControlFetch delete)])
      (S (next_id w)).
Proof. destruct w; reflexivity. Qed.

(** What [loadVms] of the first revision does before its response. *)
Lemma auto_loadVms_run (w : World Auto.Kont) :
  run Auto.loadVms w =
    if bool_decide (clusterSelect (state w) = EmptyString)
    then after_events [ConsoleLog "클러스터 미선택, VM 로드 스킵"] w
    else mkWorld (set_currentCluster (Some (clusterSelect (state w))) (state w))
           (answers w)
           (trace w ++ [Fetch (next_id w) (vms_request (clusterSelect (state w)))])
           (inflight w ++
              [mkPending (next_id w) (vms_request (clusterSelect (state w)))
                         (Auto.AfterVmsFetch (clusterSelect (state w)))])
           (S (next_id w)).
Proof.
  destruct w as [st ans tr inf nid]. unfold Auto.loadVms, falsy, truthy.
  run_js. destruct (bool_decide (clusterSelect st = EmptyString)); reflexivity.
Qed.

Lemma requests_app (t1 t2 : list Event) :
  requests (t1 ++ t2) = (requests t1 ++ requests t2)%list.
Proof. unfold requests. apply omap_app. Qed.

(** C10: for start and shutdown, [controlVm] begins with a confirmation
    prompt, in dashboard.js and in the earlier revision alike: whatever the
    operator answers, the prompt is the first effect.  When the operator
    declines, it is the only one: no request is sent, and the page state,
    the pending requests and the request counter are as before. *)
Theorem controlVm_declined_does_nothing
    (w : World Auto.Kont) (w0 : World Legacy.Kont)
    (clusterName node : string) (vmid : Z) (action : Action) :
  action <> delete ->
  ((exists rest,
      trace (run (Auto.controlVm clusterName node vmid action) w) =
        trace w ++ Confirm (AskControl vmid (actions action))
                           (hd false (answers w)) :: rest) /\
   (hd false (answers w) = false ->
    run (Auto.controlVm clusterName node vmid action) w =
      after_dialog (Confirm (AskControl vmid (actions action)) false) w /\
    requests (trace (run (Auto.controlVm clusterName node vmid action) w)) =
      requests (trace w))) /\
  ((exists rest,
      trace (run (Legacy.controlVm node vmid action) w0) =
        trace w0 ++ Confirm (AskControl vmid (actions action))
                            (hd false (answers w0)) :: rest) /\
   (hd false (answers w0) = false ->
    run (Legacy.controlVm node vmid action) w0 =
      after_dialog (Confirm (AskControl vmid (actions action)) false) w0 /\
    requests (trace (run (Legacy.controlVm node vmid action) w0)) =
      requests (trace w0))).
Proof.
  intros Hne.
  rewrite (auto_controlVm_run w clusterName node vmid action Hne).
  rewrite (legacy_controlVm_run w0 node vmid action).
  split; (split; [| intros ->; split; [reflexivity |]]).
  - destruct (hd false (answers w)); eexists; reflexivity.
  - unfold after_dialog; cbn [trace]. rewrite requests_app. apply app_nil_r.
  - destruct (hd false (answers w0)); eexists; reflexivity.
  - unfold after_dialog; cbn [trace]. rewrite requests_app. apply app_nil_r.
Qed.

Lemma controlVm_declined_does_nothing_witness :
  run (Auto.controlVm "cluster_a" "pve1" 101 start) (initial_world [false]) =
    after_dialog (Confirm (AskControl 101 (actions start)) false)
                 (initial_world [false]) /\
  run (Legacy.controlVm "pve1" 101 shutdown) (initial_world []) =
    after_dialog (Confirm (AskControl 101 (actions shutdown)) false)
                 (initial_world []).
Proof.
  pose proof (controlVm_declined_does_nothing
                (initial_world [false]) (initial_world [])
                "cluster_a" "pve1" 101 start) as Hstart.
  pose proof (controlVm_declined_does_nothing
                (initial_world [false]) (initial_world [])
                "cluster_a" "pve1" 101 shutdown) as Hstop.
  split.
  - apply Hstart; [discriminate | reflexivity].
  - apply Hstop; [discriminate | reflexivity].
Defined.


Lemma pending_mutations_sent (w : World Auto.Kont) (c n : string) (v : Z)
    (a : Action) (st : State) (ans : list bool) (tr : list Event) (nid : nat) :
  pending_mutations v
    (mkWorld st ans tr
       (inflight w ++ [mkPending (next_id w) (control_request c n v a)
                                 (Auto.AfterControlFetch a)]) nid) =
  S (pending_mutations v w).
Proof.
  unfold pending_mutations; cbn.
  rewrite List.filter_app, length_app; cbn.
  unfold mutates; cbn. rewrite Z.eqb_refl; cbn. lia.
Qed.

(** C2, as stated, fails: a second start for VM 101, issued while the
    first is still in flight, asks the operator and is sent like the first;
    two mutations for VM 101 are then pending. *)
Lemma second_start_is_sent_too :
  trace (Auto.play double_start (initial_world [true; true])) =
    [Confirm (AskControl 101 (actions start)) true;
     Fetch 0 (control_request "cluster_a" "pve1" 101 start);
     Confirm (AskControl 101 (actions start)) true;
     Fetch 1 (control_request "cluster_a" "pve1" 101 start)] /\
  pending_mutations 101 (Auto.play double_start (initial_world [true; true])) = 2%nat.
Proof. split; reflexivity. Qed.

(** C2, amended: [controlVm] keeps no record of the requests in flight.
    Whatever is pending, a start or shutdown the operator confirms is sent,
    and a delete passed to [controlVm] is sent without a question; each adds
    one more pending mutation for that VM, so several can be in flight for
    the same VM. *)
Theorem controlVm_sends_whatever_is_pending (w : World Auto.Kont)
    (clusterName node : string) (vmid : Z) (action : Action) :
  action = delete \/ hd false (answers w) = true ->
  requests (trace (run (Auto.controlVm clusterName node vmid action) w)) =
    (requests (trace w) ++ [control_request clusterName node vmid action])%list /\
  inflight (run (Auto.controlVm clusterName node vmid action) w) =
    (inflight w ++ [mkPending (next_id w)
                      (control_request clusterName node vmid action)
                      (Auto.AfterControlFetch action)])%list /\
  pending_mutations vmid (run (Auto.controlVm clusterName node vmid action) w) =
    S (pending_mutations vmid w).
Proof.
  intros H.
  destruct (decide (action = delete)) as [-> | Hne].
  - rewrite auto_controlVm_delete_run. cbn [trace inflight].
    rewrite requests_app, pending_mutations_sent. auto.
  - destruct H as [H | H]; [contradiction |].
    rewrite (auto_controlVm_run w clusterName node vmid action Hne), H.
    cbn [trace inflight].
    rewrite requests_app, pending_mutations_sent. auto.
Qed.

Lemma controlVm_sends_whatever_is_pending_witness :
  pending_mutations 101
    (run (Auto.controlVm "cluster_a" "pve1" 101 start)
         (Auto.play double_start (initial_world [true; true; true]))) = 3%nat.
Proof.
  pose proof (controlVm_sends_whatever_is_pending
                (Auto.play double_start (initial_world [true; true; true]))
                "cluster_a" "pve1" 101 start (or_intror eq_refl)) as H.
  exact (proj2 (proj2 H)).
Defined.

(** The prompt of a delete warns of data loss exactly for a running VM. *)
Lemma delete_prompt_warns (name : string) (vmid : Z) (status : string) :
  warns_data_loss (delete_prompt name vmid status) = true <-> status = "running".
Proof.
  unfold delete_prompt. destruct (bool_decide (status = "running")) eqn:E; cbn.
  - apply bool_decide_eq_true in E. tauto.
  - apply bool_decide_eq_false in E. split; [discriminate | contradiction].
Qed.

Lemma auto_confirmDelete_run (w : World Auto.Kont) (clusterName node : string)
    (vmid : Z) (name status : string) :
  run (Auto.confirmDelete clusterName node vmid name status) w =
    if hd false (answers w)
    then mkWorld (state w) (tl (answers w))
           (trace w ++ [Confirm (delete_prompt name vmid status) true;
                        Fetch (next_id w)
                              (control_request clusterName node vmid delete)])
           (inflight w ++
              [mkPending (next_id w)
                         (control_request clusterName node vmid delete)
                         (Auto.AfterControlFetch delete)])
           (S (next_id w))
    else after_dialog (Confirm (delete_prompt name vmid status) false) w.
Proof.
  unfold Auto.confirmDelete, Auto.controlVm.
  change (delete_prompt name vmid status) with
    (if bool_decide (status = "running") then AskDeleteRunning name
     else AskDelete name vmid).
  destruct w as [st ans tr inf nid]; destruct ans as [|[] rest];
    run_js; simpl; rewrite <- ?app_assoc; reflexivity.
Qed.

(** The answer to a control request, in the first revision. *)
Lemma auto_control_response (w : World Auto.Kont) (id : nat)
    (p : Pending Auto.Kont) (action : Action) (res : Response) :
  find_pending id w = Some p ->
  p_kont p = Auto.AfterControlFetch action ->
  deliver Auto.resume id res w =
    match res with
    | Reply true _ _ =>
        run Auto.loadVms
            (after_events [Alert (ActionDone (actions action))]
                          (remove_pending id w))
    | Reply false text _ | NetworkFailure text =>
        after_events [Alert (ActionError (actions action) text)]
                     (remove_pending id w)
    end.
Proof.
  intros Hfind Hk. unfold deliver. rewrite Hfind, Hk.
  cbn [Auto.resume].
  unfold Auto.controlVm_resume, Auto.loadVms, remove_pending, falsy, truthy.
  destruct w as [st ans tr inf nid].
  destruct res as [message | [] text json]; run_js; try reflexivity.
  destruct (bool_decide (clusterSelect st = EmptyString)); reflexivity.
Qed.


(** C4, as stated, fails twice.  In dashboard.js a delete the operator
    confirmed and the backend refused is one network call with an error
    alert and no refresh after it.  In the earlier revision a confirmed
    delete of a running VM shows two prompts before the network call. *)
Lemma delete_refused_or_asked_twice :
  trace (Auto.play refused_delete (initial_world [true])) =
    [Fetch 0 (vms_request "cluster_a");
     Confirm (AskDeleteRunning "web") true;
     Fetch 1 (control_request "cluster_a" "pve1" 101 delete);
     Alert (ActionError (actions delete) "VM is locked")] /\
  trace (run (Legacy.confirmDelete "pve1" 101 "web" "running")
             (initial_world [true; true])) =
    [Confirm (AskDeleteRunningThenPlain "web" 101) true;
     Confirm (AskControl 101 (actions delete)) true;
     Fetch 0 (legacy_control_request "pve1" 101 delete)].
Proof. split; reflexivity. Qed.

(** C4, amended, for dashboard.js: a delete shows exactly one prompt
    whatever the status, with the data-loss warning exactly when the
    last-known status is running; [controlVm] does not ask again.  Declined,
    the prompt is the only effect; confirmed, exactly one delete request is
    sent.  When that request is answered OK, a completion alert and one
    [loadVms] refresh follow (one VM-list request when a cluster is
    selected); when it is refused or the network fails, an error alert
    follows and no refresh. *)
Theorem confirmDelete_asks_exactly_once (w : World Auto.Kont)
    (clusterName node : string) (vmid : Z) (name status : string)
    (id : nat) (p : Pending Auto.Kont) (text : string) (json : Payload) :
  (warns_data_loss (delete_prompt name vmid status) = true <->
   status = "running") /\
  run (Auto.confirmDelete clusterName node vmid name status) w =
    (if hd false (answers w)
     then mkWorld (state w) (tl (answers w))
            (trace w ++ [Confirm (delete_prompt name vmid status) true;
                         Fetch (next_id w)
                               (control_request clusterName node vmid delete)])
            (inflight w ++
               [mkPending (next_id w)
                          (control_request clusterName node vmid delete)
                          (Auto.AfterControlFetch delete)])
            (S (next_id w))
     else after_dialog (Confirm (delete_prompt name vmid status) false) w) /\
  (find_pending id w = Some p ->
   p_kont p = Auto.AfterControlFetch delete ->
   deliver Auto.resume id (Reply true text json) w =
     run Auto.loadVms
         (after_events [Alert (ActionDone (actions delete))]
                       (remove_pending id w)) /\
   (clusterSelect (state w) <> EmptyString ->
    requests (trace (deliver Auto.resume id (Reply true text json) w)) =
      (requests (trace w) ++ [vms_request (clusterSelect (state w))])%list) /\
   deliver Auto.resume id (Reply false text json) w =
     after_events [Alert (ActionError (actions delete) text)]
                  (remove_pending id w) /\
   deliver Auto.resume id (NetworkFailure text) w =
     after_events [Alert (ActionError (actions delete) text)]
                  (remove_pending id w)).
Proof.
  split; [apply delete_prompt_warns |].
  split; [apply auto_confirmDelete_run |].
  intros Hfind Hk.
  rewrite !(auto_control_response w id p delete _ Hfind Hk).
  repeat split.
  intros Hsel. rewrite auto_loadVms_run.
  destruct w as [st ans tr inf nid]; cbn in *.
  rewrite bool_decide_eq_false_2 by exact Hsel. cbn [trace].
  rewrite !requests_app. cbn [requests omap list_omap].
  rewrite app_nil_r. reflexivity.
Qed.

Lemma confirmDelete_asks_exactly_once_witness :
  deliver Auto.resume 1 (Reply false "VM is locked" OtherObject)
          (Auto.play confirmed_delete (initial_world [true])) =
    after_events [Alert (ActionError (actions delete) "VM is locked")]
      (remove_pending 1 (Auto.play confirmed_delete (initial_world [true]))).
Proof.
  pose proof (confirmDelete_asks_exactly_once
                (Auto.play confirmed_delete (initial_world [true]))
                "cluster_a" "pve1" 101 "web" "running" 1
                (mkPending 1 (control_request "cluster_a" "pve1" 101 delete)
                           (Auto.AfterControlFetch delete))
                "VM is locked" OtherObject) as H.
  exact (proj1 (proj2 (proj2 (proj2 (proj2 H) eq_refl eq_refl)))).
Defined.

(** The earlier revision asks twice: [confirmDelete] asks, then
    [controlVm] asks again before it sends the delete. *)
Lemma legacy_confirmDelete_asks_twice (w : World Legacy.Kont) (node : string)
    (vmid : Z) (name status : string) (rest : list bool) :
  answers w = true :: true :: rest ->
  trace (run (Legacy.confirmDelete node vmid name status) w) =
    trace w ++ [Confirm (legacy_delete_prompt name vmid status) true;
                Confirm (AskControl vmid (actions delete)) true;
                Fetch (next_id w) (legacy_control_request node vmid delete)].
Proof.
  intros Hans. unfold Legacy.confirmDelete, Legacy.controlVm.
  destruct w as [st ans tr inf nid]; cbn in Hans; subst ans.
  run_js; simpl. rewrite <- !app_assoc. reflexivity.
Qed.

End ControlClaims.

(** ** Reconfiguration *)

Section ConfigClaims.
Import Metrics Js Browser Observe.

Lemma encoded_lookup (form : gmap string string) (key : string) :
  key <> "ssh_public_key" -> encoded form !! key = form !! key.
Proof. intros H. unfold encoded. apply lookup_insert_ne. congruence. Qed.

(** The submit listener of the first revision, by the two sizes. *)
Lemma auto_configForm_submit_run (w : World Auto.Kont)
    (form : gmap string string) (N : Z) :
  parseInt (form !! "resize") = Some N ->
  run (Auto.configForm_submit form) w =
    if N <? current_disk w
    then after_events [Alert (DiskShrinkRefused (current_disk w) (Some N))] w
    else if N =? current_disk w
    then if hd false (answers w)
         then config_sent [Confirm (AskDiskUnchanged (current_disk w)) true]
                          (tl (answers w)) form w
         else after_dialog (Confirm (AskDiskUnchanged (current_disk w)) false) w
    else config_sent [] (answers w) form w.
Proof.
  intros HN. unfold Auto.configForm_submit.
  fold (encoded form). rewrite encoded_lookup by discriminate. rewrite HN.
  unfold current_disk, config_sent, config_request.
  destruct w as [st ans tr inf nid]. run_js. cbn [num_lt num_eq].
  destruct (N <? num_or (parseInt (currentSize st)) 20); [reflexivity |].
  destruct (N =? num_or (parseInt (currentSize st)) 20); [| reflexivity].
  destruct ans as [|[] rest]; cbn; rewrite <- ?app_assoc; reflexivity.
Qed.

(** The second revision sends the form as it is. *)
Lemma manual_configForm_onsubmit_run (w : World Manual.Kont)
    (form : gmap string string) :
  run (Manual.configForm_onsubmit form) w =
    mkWorld (state w) (answers w)
      (trace w ++ [Fetch (next_id w) (config_request form)])
      (inflight w ++
         [mkPending (next_id w) (config_request form) Manual.AfterConfigFetch])
      (S (next_id w)).
Proof. destruct w; reflexivity. Qed.

(** C1, as stated, fails in the second revision of dashboard.js: with 20 GB
    as the current size, a submission asking for 15 GB is sent to the
    backend, with no alert and no prompt. *)
Lemma manual_revision_sends_a_shrink :
  parseInt (Some "15") = Some 15 /\
  current_disk (@page_with_disk_20 Manual.Kont) = 20 /\
  trace (run (Manual.configForm_onsubmit {[ "resize" := "15" ]})
             page_with_disk_20) =
    [Fetch 0 (config_request {[ "resize" := "15" ]})].
Proof. repeat split. Qed.

(** C1, amended: in the first revision of dashboard.js, with C the current
    size ([parseInt] of the stored size, 20 when that is missing or zero)
    and N the requested size parsed as an integer: N < C is refused with the
    disk-shrink alert and nothing is sent; N = C asks for a confirmation and
    the request is sent exactly when the operator confirms; N > C sends the
    request with no prompt.  The second revision has no disk check and
    sends every submission. *)
Theorem configForm_submit_guards_disk (w : World Auto.Kont)
    (w0 : World Manual.Kont) (form : gmap string string) (N : Z) :
  parseInt (form !! "resize") = Some N ->
  (N < current_disk w ->
     run (Auto.configForm_submit form) w =
       after_events [Alert (DiskShrinkRefused (current_disk w) (Some N))] w /\
     requests (trace (run (Auto.configForm_submit form) w)) =
       requests (trace w)) /\
  (N = current_disk w ->
     run (Auto.configForm_submit form) w =
       if hd false (answers w)
       then config_sent [Confirm (AskDiskUnchanged (current_disk w)) true]
                        (tl (answers w)) form w
       else after_dialog (Confirm (AskDiskUnchanged (current_disk w)) false) w) /\
  (current_disk w < N ->
     run (Auto.configForm_submit form) w = config_sent [] (answers w) form w) /\
  run (Manual.configForm_onsubmit form) w0 =
    mkWorld (state w0) (answers w0)
      (trace w0 ++ [Fetch (next_id w0) (config_request form)])
      (inflight w0 ++
         [mkPending (next_id w0) (config_request form) Manual.AfterConfigFetch])
      (S (next_id w0)).
Proof.
  intros HN. rewrite (auto_configForm_submit_run w form N HN).
  split; [| split; [| split]].
  - intros Hlt.
    destruct (Z.ltb_spec N (current_disk w)); [| lia].
    split; [reflexivity |].
    unfold after_events; cbn [trace]. rewrite requests_app; cbn.
    apply app_nil_r.
  - intros ->. rewrite Z.ltb_irrefl, Z.eqb_refl. reflexivity.
  - intros Hgt.
    destruct (Z.ltb_spec N (current_disk w)); [lia |].
    destruct (Z.eqb_spec N (current_disk w)); [lia | reflexivity].
  - apply manual_configForm_onsubmit_run.
Qed.

Lemma configForm_submit_guards_disk_witness :
  run (Auto.configForm_submit {[ "resize" := "15" ]}) page_with_disk_20 =
    after_events [Alert (DiskShrinkRefused 20 (Some 15))] page_with_disk_20 /\
  run (Auto.configForm_submit {[ "resize" := "20" ]}) page_with_disk_20 =
    config_sent [Confirm (AskDiskUnchanged 20) true] [] {[ "resize" := "20" ]}
                page_with_disk_20 /\
  run (Auto.configForm_submit {[ "resize" := "25" ]}) page_with_disk_20 =
    config_sent [] [true] {[ "resize" := "25" ]} page_with_disk_20.
Proof.
  split; [| split].
  - apply (configForm_submit_guards_disk page_with_disk_20 page_with_disk_20
             {[ "resize" := "15" ]} 15); vm_compute; reflexivity.
  - apply (configForm_submit_guards_disk page_with_disk_20 page_with_disk_20
             {[ "resize" := "20" ]} 20); vm_compute; reflexivity.
  - apply (configForm_submit_guards_disk page_with_disk_20 page_with_disk_20
             {[ "resize" := "25" ]} 25); vm_compute; reflexivity.
Defined.

End ConfigClaims.

(** ** Creation *)

Section CreateClaims.
Import Metrics Js Browser Observe.

Lemma auto_handleVmCreate_run (w : World Auto.Kont) (form : gmap string string) :
  run (Auto.handleVmCreate form) w =
    if isCreating (state w) then w
    else if truthy (form !! "cluster_name")
    then create_sent "최적 노드 분석 중..."
           "1️⃣ 최저 부하 노드 분석 → 2️⃣ VM 생성 중..."
           (create_request (encoded form))
           (Auto.AfterCreateFetch (clusterSelect (state w))) w
    else create_failed "🚀 VM 생성 (최저 부하 노드 자동 선택)"
           "1️⃣ 최저 부하 노드 분석 → 2️⃣ VM 생성 중..."
           [ConsoleError "VM 생성 실패:" "클러스터를 선택해주세요.";
            Alert (CreateFailed "클러스터를 선택해주세요.")] w.
Proof.
  unfold Auto.handleVmCreate, Auto.create_catch, Auto.create_finally, falsy.
  fold (encoded form). rewrite encoded_lookup by discriminate.
  destruct w as [[creating cc cs nz cd an vl sts sb ld cb cm sz] ans tr inf nid].
  run_js. cbn [isCreating].
  destruct creating; [reflexivity |].
  destruct (truthy (form !! "cluster_name")); cbn;
    rewrite <- ?app_assoc; reflexivity.
Qed.

Lemma manual_handleVmCreate_run (w : World Manual.Kont)
    (form : gmap string string) :
  run (Manual.handleVmCreate form) w =
    if isCreating (state w) then w
    else if truthy (form !! "cluster_name")
    then if truthy (form !! "node_zone")
         then create_sent "생성 중..." (loadingText (loading (state w)))
                (create_request form)
                (Manual.AfterCreateFetch (clusterSelect (state w))
                                         (nodeZoneSelect (state w))) w
         else create_failed "VM 생성 시작" (loadingText (loading (state w)))
                [Alert (CreateFailedPlain "노드를 선택해주세요.")] w
    else create_failed "VM 생성 시작" (loadingText (loading (state w)))
           [Alert (CreateFailedPlain "클러스터를 선택해주세요.")] w.
Proof.
  unfold Manual.handleVmCreate, Manual.create_catch, Manual.create_finally, falsy.
  destruct w as [[creating cc cs nz cd an vl sts sb ld cb cm sz] ans tr inf nid].
  run_js. cbn [isCreating].
  destruct creating; [reflexivity |].
  destruct (truthy (form !! "cluster_name")); cbn;
    [destruct (truthy (form !! "node_zone")); cbn |]; reflexivity.
Qed.

Lemma legacy_handleVmCreate_run (w : World Legacy.Kont)
    (form : gmap string string) :
  run (Legacy.handleVmCreate form) w =
    if isCreating (state w) then w
    else if truthy (form !! "node_zone")
    then create_sent "생성 중..." (loadingText (loading (state w)))
           (create_request form) Legacy.AfterCreateFetch w
    else create_failed "VM 생성 시작" (loadingText (loading (state w)))
           [Alert (CreateFailedPlain "노드를 선택해주세요.")] w.
Proof.
  unfold Legacy.handleVmCreate, Legacy.create_catch, Legacy.create_finally, falsy.
  destruct w as [[creating cc cs nz cd an vl sts sb ld cb cm sz] ans tr inf nid].
  run_js. cbn [isCreating].
  destruct creating; [reflexivity |].
  destruct (truthy (form !! "node_zone")); cbn; reflexivity.
Qed.


Lemma requests_sent (t : list Event) (id : nat) (r : Request) :
  requests (t ++ [Fetch id r]) = requests t ++ [r].
Proof. rewrite requests_app. reflexivity. Qed.

Lemma requests_dialogs (t es : list Event) :
  requests es = [] -> requests (t ++ es) = requests t ++ [].
Proof. intros H. rewrite requests_app, H. reflexivity. Qed.

(** C5, as stated, fails: the first revision of dashboard.js sends a
    creation whose form names a cluster and no node, and the earlier
    revision sends one that names a node and no cluster. *)
Lemma create_sent_with_one_selection :
  ({[ "cluster_name" := "cluster_a" ]} : gmap string string) !! "node_zone" = None /\
  requests (trace (run (Auto.handleVmCreate {[ "cluster_name" := "cluster_a" ]})
                       (initial_world []))) =
    [create_request (encoded {[ "cluster_name" := "cluster_a" ]})] /\
  ({[ "node_zone" := "pve1" ]} : gmap string string) !! "cluster_name" = None /\
  requests (trace (run (Legacy.handleVmCreate {[ "node_zone" := "pve1" ]})
                       (initial_world []))) =
    [create_request {[ "node_zone" := "pve1" ]}].
Proof. repeat split. Qed.

(** C5, amended: each revision checks the fields its own form has.  The
    first revision of dashboard.js requires the cluster only (the backend
    picks the node after dispatch), the second the cluster and the node, the
    earlier revision the node only.  A creation request is sent exactly when
    no creation is already running and the required fields are non-empty;
    when one is empty or missing, the submission fails locally with the
    alert naming the missing field, and nothing is sent. *)
Theorem handleVmCreate_checks_its_own_fields (wa : World Auto.Kont)
    (wm : World Manual.Kont) (wl : World Legacy.Kont)
    (form : gmap string string) :
  (requests (trace (run (Auto.handleVmCreate form) wa)) =
     requests (trace wa) ++
     (if negb (isCreating (state wa)) && truthy (form !! "cluster_name")
      then [create_request (encoded form)] else []) /\
   requests (trace (run (Manual.handleVmCreate form) wm)) =
     requests (trace wm) ++
     (if negb (isCreating (state wm)) && truthy (form !! "cluster_name")
         && truthy (form !! "node_zone")
      then [create_request form] else []) /\
   requests (trace (run (Legacy.handleVmCreate form) wl)) =
     requests (trace wl) ++
     (if negb (isCreating (state wl)) && truthy (form !! "node_zone")
      then [create_request form] else [])) /\
  (isCreating (state wa) = false -> falsy (form !! "cluster_name") = true ->
   run (Auto.handleVmCreate form) wa =
     create_failed "🚀 VM 생성 (최저 부하 노드 자동 선택)"
       "1️⃣ 최저 부하 노드 분석 → 2️⃣ VM 생성 중..."
       [ConsoleError "VM 생성 실패:" "클러스터를 선택해주세요.";
        Alert (CreateFailed "클러스터를 선택해주세요.")] wa) /\
  (isCreating (state wm) = false -> falsy (form !! "cluster_name") = true ->
   run (Manual.handleVmCreate form) wm =
     create_failed "VM 생성 시작" (loadingText (loading (state wm)))
       [Alert (CreateFailedPlain "클러스터를 선택해주세요.")] wm) /\
  (isCreating (state wm) = false -> truthy (form !! "cluster_name") = true ->
   falsy (form !! "node_zone") = true ->
   run (Manual.handleVmCreate form) wm =
     create_failed "VM 생성 시작" (loadingText (loading (state wm)))
       [Alert (CreateFailedPlain "노드를 선택해주세요.")] wm) /\
  (isCreating (state wl) = false -> falsy (form !! "node_zone") = true ->
   run (Legacy.handleVmCreate form) wl =
     create_failed "VM 생성 시작" (loadingText (loading (state wl)))
       [Alert (CreateFailedPlain "노드를 선택해주세요.")] wl).
Proof.
  rewrite auto_handleVmCreate_run, manual_handleVmCreate_run,
    legacy_handleVmCreate_run.
  unfold falsy.
  split; [split; [| split] | split; [| split; [| split]]].
  - destruct (isCreating (state wa)); cbn; [symmetry; apply app_nil_r |].
    destruct (truthy (form !! "cluster_name")); cbn [trace create_sent create_failed].
    + apply requests_sent.
    + apply requests_dialogs. reflexivity.
  - destruct (isCreating (state wm)); cbn; [symmetry; apply app_nil_r |].
    destruct (truthy (form !! "cluster_name")),
             (truthy (form !! "node_zone"));
      cbn [trace create_sent create_failed andb];
      try apply requests_sent; apply requests_dialogs; reflexivity.
  - destruct (isCreating (state wl)); cbn; [symmetry; apply app_nil_r |].
    destruct (truthy (form !! "node_zone")); cbn [trace create_sent create_failed].
    + apply requests_sent.
    + apply requests_dialogs. reflexivity.
  - intros -> Hc. apply negb_true_iff in Hc. rewrite Hc. reflexivity.
  - intros -> Hc. apply negb_true_iff in Hc. rewrite Hc. reflexivity.
  - intros -> Hc Hn. apply negb_true_iff in Hn. rewrite Hc, Hn. reflexivity.
  - intros -> Hn. apply negb_true_iff in Hn. rewrite Hn. reflexivity.
Qed.

Lemma handleVmCreate_checks_its_own_fields_witness :
  run (Manual.handleVmCreate {[ "cluster_name" := "cluster_a" ]})
      (initial_world []) =
    create_failed "VM 생성 시작" EmptyString
      [Alert (CreateFailedPlain "노드를 선택해주세요.")] (initial_world []).
Proof.
  pose proof (handleVmCreate_checks_its_own_fields
                (initial_world []) (initial_world []) (initial_world [])
                {[ "cluster_name" := "cluster_a" ]}) as H.
  apply (proj1 (proj2 (proj2 (proj2 H)))); vm_compute; reflexivity.
Defined.

End CreateClaims.

(** ** Refreshing the list *)

Section RefreshClaims.
Import Metrics Js Browser Observe.

(** The answer to a VM-list request, in the first revision: the list is
    replaced, by the rendered VMs or by the failure text; the selection and
    the other pending requests are not looked at. *)
Lemma auto_vms_response (w : World Auto.Kont) (id : nat)
    (p : Pending Auto.Kont) (clusterName : string) (res : Response) :
  find_pending id w = Some p ->
  p_kont p = Auto.AfterVmsFetch clusterName ->
  deliver Auto.resume id res w =
    match auto_refresh_error clusterName res with
    | Some error =>
        mkWorld (set_vmList LoadFailed (state w)) (answers w)
          (trace w ++ [ConsoleError "VM 목록 로드 실패:" error])
          (inflight (remove_pending id w)) (next_id w)
    | None =>
        mkWorld (set_stats (count_stats (response_vms res))
                   (set_vmList (auto_view clusterName res) (state w)))
          (answers w) (trace w) (inflight (remove_pending id w)) (next_id w)
    end.
Proof.
  intros Hfind Hk. unfold deliver. rewrite Hfind, Hk.
  cbn [Auto.resume]. unfold Auto.loadVms_resume, auto_view, remove_pending.
  destruct w as [st ans tr inf nid].
  destruct res as [message | [] text json]; try reflexivity.
  cbn [auto_refresh_error response_vms].
  destruct json as [| vms | vms | v n nm |]; try reflexivity;
    cbn [vms_of]; (destruct vms as [| vm vms]; [reflexivity |]);
    run_js; destruct (mapM (Auto.render_vm clusterName) (vm :: vms));
    reflexivity.
Qed.

(** The same for the earlier revision, whose [catch] only logs. *)
Lemma legacy_vms_response (w : World Legacy.Kont) (id : nat)
    (p : Pending Legacy.Kont) (res : Response) :
  find_pending id w = Some p ->
  p_kont p = Legacy.AfterVmsFetch ->
  deliver Legacy.resume id res w =
    match legacy_refresh_error res with
    | Some error =>
        mkWorld (state w) (answers w)
          (trace w ++ [ConsoleError EmptyString error])
          (inflight (remove_pending id w)) (next_id w)
    | None =>
        mkWorld (set_stats (count_stats (response_vms res))
                   (set_vmList (render_list None (response_vms res)) (state w)))
          (answers w) (trace w) (inflight (remove_pending id w)) (next_id w)
    end.
Proof.
  intros Hfind Hk. unfold deliver. rewrite Hfind, Hk.
  cbn [Legacy.resume]. unfold Legacy.loadVms_resume, remove_pending.
  destruct w as [st ans tr inf nid].
  destruct res as [message | ok text json]; try reflexivity.
  destruct json; reflexivity.
Qed.

(** A delivery to one request leaves the others pending. *)
Lemma find_filter_other (K : Type) (l : list (Pending K)) (a b : nat) :
  a <> b ->
  List.find (fun p => Nat.eqb (p_id p) a)
            (List.filter (fun p => negb (Nat.eqb (p_id p) b)) l) =
  List.find (fun p => Nat.eqb (p_id p) a) l.
Proof.
  intros Hab. induction l as [| p l IH]; [reflexivity |]. cbn.
  destruct (Nat.eqb_spec (p_id p) b) as [Hb | Hb]; cbn.
  - destruct (Nat.eqb_spec (p_id p) a) as [Ha | Ha]; [congruence | exact IH].
  - rewrite IH. reflexivity.
Qed.

Lemma auto_vms_response_keeps_pending (w : World Auto.Kont) (a b : nat)
    (p : Pending Auto.Kont) (clusterName : string) (res : Response) :
  a <> b ->
  find_pending b w = Some p ->
  p_kont p = Auto.AfterVmsFetch clusterName ->
  find_pending a (deliver Auto.resume b res w) = find_pending a w.
Proof.
  intros Hab Hfind Hk.
  rewrite (auto_vms_response w b p clusterName res Hfind Hk).
  unfold find_pending.
  destruct (auto_refresh_error clusterName res); cbn [inflight remove_pending];
    apply find_filter_other; exact Hab.
Qed.


(** C3, as stated, fails: refresh A is issued for cluster A and refresh B
    for cluster B after the selection moved; B is answered first and A last.
    The list then shows cluster A's VM, with cluster A in its buttons, while
    the selection and [currentCluster] are cluster B; B's data is gone. *)
Lemma late_answer_shows_the_other_cluster :
  clusterSelect (state (Auto.play late_answer (initial_world []))) = "cluster_b" /\
  currentCluster (state (Auto.play late_answer (initial_world []))) =
    Some "cluster_b" /\
  Some (vmList (state (Auto.play late_answer (initial_world [])))) =
    Items <$> mapM (Auto.render_vm "cluster_a") [web] /\
  (Some (vmList (state (Auto.play late_answer (initial_world [])))) =
     Items <$> mapM (Auto.render_vm "cluster_b") [db] -> False).
Proof. repeat split. vm_compute. discriminate. Qed.

(** C3, amended: the script numbers no request and discards no response.
    Each answer to a VM-list request is rendered when it arrives, for the
    cluster the request was issued for.  Of refresh A (cluster X) and refresh
    B (cluster Y), both in flight, the one answered last is the one shown: if
    A's answer arrives after B's, the list and the counters show X's VMs,
    while the selection stays where it was. *)
Theorem last_answer_is_shown (w : World Auto.Kont) (idA idB : nat)
    (pA pB : Pending Auto.Kont) (X Y : string) (text : string)
    (vm : VM) (vms : list VM) (items : list VmItem) (resB : Response) :
  idA <> idB ->
  find_pending idA w = Some pA -> p_kont pA = Auto.AfterVmsFetch X ->
  find_pending idB w = Some pB -> p_kont pB = Auto.AfterVmsFetch Y ->
  mapM (Auto.render_vm X) (vm :: vms) = Some items ->
  vmList (state (deliver Auto.resume idA (Reply true text (VmsObject (vm :: vms)))
                   (deliver Auto.resume idB resB w))) = Items items /\
  stats (state (deliver Auto.resume idA (Reply true text (VmsObject (vm :: vms)))
                  (deliver Auto.resume idB resB w))) =
    count_stats (Some (vm :: vms)) /\
  clusterSelect
    (state (deliver Auto.resume idA (Reply true text (VmsObject (vm :: vms)))
              (deliver Auto.resume idB resB w))) = clusterSelect (state w) /\
  currentCluster
    (state (deliver Auto.resume idA (Reply true text (VmsObject (vm :: vms)))
              (deliver Auto.resume idB resB w))) = currentCluster (state w).
Proof.
  intros Hne HA HkA HB HkB Hitems.
  assert (HA' : find_pending idA (deliver Auto.resume idB resB w) = Some pA).
  { rewrite (auto_vms_response_keeps_pending w idA idB pB Y resB Hne HB HkB).
    exact HA. }
  rewrite (auto_vms_response _ idA pA X _ HA' HkA).
  cbn [auto_refresh_error vms_of]. rewrite Hitems.
  unfold auto_view. cbn [response_vms vms_of]. rewrite Hitems.
  rewrite (auto_vms_response w idB pB Y resB HB HkB).
  destruct w as [[creating cc cs nz cd an vl sts sb ld cb cm sz] ans tr inf nid].
  destruct (auto_refresh_error Y resB); cbn; auto.
Qed.

Lemma last_answer_is_shown_witness :
  Some (vmList (state
          (deliver Auto.resume 0 (Reply true EmptyString (VmsObject [web]))
             (deliver Auto.resume 1 (ok_vms [db])
                (Auto.play [Auto.SelectCluster "cluster_a";
                            Auto.SelectCluster "cluster_b"]
                           (initial_world [])))))) =
    Items <$> mapM (Auto.render_vm "cluster_a") [web].
Proof.
  pose proof (last_answer_is_shown
                (Auto.play [Auto.SelectCluster "cluster_a";
                            Auto.SelectCluster "cluster_b"] (initial_world []))
                0 1
                (mkPending 0 (vms_request "cluster_a")
                           (Auto.AfterVmsFetch "cluster_a"))
                (mkPending 1 (vms_request "cluster_b")
                           (Auto.AfterVmsFetch "cluster_b"))
                "cluster_a" "cluster_b" EmptyString web []
                (default [] (mapM (Auto.render_vm "cluster_a") [web]))
                (ok_vms [db])) as H.
  rewrite (proj1 (H ltac:(discriminate) eq_refl eq_refl eq_refl eq_refl eq_refl)).
  reflexivity.
Defined.

(** C6, as stated, fails: cluster A's VM is shown, then a refresh fails on
    the network.  The list is replaced by the failure text, so the earlier
    snapshot is no longer shown; the counters keep their earlier values with
    nothing that marks them as stale. *)
Lemma failed_refresh_drops_the_list :
  Some (vmList (state (Auto.play shown_then (initial_world [])))) =
    Items <$> mapM (Auto.render_vm "cluster_a") [web] /\
  vmList (state (Auto.play failed_refresh (initial_world []))) = LoadFailed /\
  stats (state (Auto.play failed_refresh (initial_world []))) = mkStats 1 1 1 0 /\
  trace (Auto.play failed_refresh (initial_world [])) =
    [Fetch 0 (vms_request "cluster_a"); Fetch 1 (vms_request "cluster_a");
     ConsoleError "VM 목록 로드 실패:" "Failed to fetch"].
Proof. repeat split. Qed.

(** C6, amended: a refresh that fails is not retried by [loadVms] and
    leaves the counters as they were.  In dashboard.js the failure is logged
    and the list is replaced by the failure text, so the earlier snapshot is
    no longer shown and nothing marks the counters as stale.  In the earlier
    revision the failure is only logged to the console: list and counters
    stay as they were, with no indication on the page. *)
Theorem failed_refresh_is_not_retried (w : World Auto.Kont)
    (w0 : World Legacy.Kont) (id id0 : nat) (p : Pending Auto.Kont)
    (p0 : Pending Legacy.Kont) (clusterName : string) (res res0 : Response)
    (error error0 : string) :
  find_pending id w = Some p -> p_kont p = Auto.AfterVmsFetch clusterName ->
  auto_refresh_error clusterName res = Some error ->
  find_pending id0 w0 = Some p0 -> p_kont p0 = Legacy.AfterVmsFetch ->
  legacy_refresh_error res0 = Some error0 ->
  deliver Auto.resume id res w =
    mkWorld (set_vmList LoadFailed (state w)) (answers w)
      (trace w ++ [ConsoleError "VM 목록 로드 실패:" error])
      (inflight (remove_pending id w)) (next_id w) /\
  deliver Legacy.resume id0 res0 w0 =
    mkWorld (state w0) (answers w0)
      (trace w0 ++ [ConsoleError EmptyString error0])
      (inflight (remove_pending id0 w0)) (next_id w0).
Proof.
  intros Hf Hk He Hf0 Hk0 He0.
  rewrite (auto_vms_response w id p clusterName res Hf Hk), He.
  rewrite (legacy_vms_response w0 id0 p0 res0 Hf0 Hk0), He0.
  split; reflexivity.
Qed.


Lemma failed_refresh_is_not_retried_witness :
  deliver Auto.resume 1 (NetworkFailure "Failed to fetch")
          (Auto.play shown_then (initial_world [])) =
    mkWorld
      (set_vmList LoadFailed (state (Auto.play shown_then (initial_world []))))
      [] [Fetch 0 (vms_request "cluster_a"); Fetch 1 (vms_request "cluster_a");
          ConsoleError "VM 목록 로드 실패:" "Failed to fetch"]
      [] 2 /\
  deliver Legacy.resume 0 (Reply true EmptyString NotJson)
          (run Legacy.loadVms (initial_world [])) =
    mkWorld initial_state []
      [Fetch 0 (mkRequest GET "/provision/api/vms" NoBody);
       ConsoleError EmptyString "SyntaxError"]
      [] 1.
Proof.
  apply (failed_refresh_is_not_retried
           (Auto.play shown_then (initial_world []))
           (run Legacy.loadVms (initial_world []))
           1 0
           (mkPending 1 (vms_request "cluster_a") (Auto.AfterVmsFetch "cluster_a"))
           (mkPending 0 (mkRequest GET "/provision/api/vms" NoBody)
                      Legacy.AfterVmsFetch)
           "cluster_a" (NetworkFailure "Failed to fetch")
           (Reply true EmptyString NotJson) "Failed to fetch" "SyntaxError");
    reflexivity.
Defined.

End RefreshClaims.

(** * Further properties of the code *)

(** ** Gauge classes and counters *)

Section MoreMetrics.
Import Metrics Js Browser Observe Watch.

(** X1: the class of a gauge follows the thresholds 50 and 80 (low below
    50, moderate from 50 and below 80, high from 80), and it never goes
    down when the value goes up. *)
Theorem getMetricColor_thresholds_monotone (v v' : Q) :
  (getMetricColor v = low <-> (v < 50)%Q) /\
  (getMetricColor v = moderate <-> (50 <= v)%Q /\ (v < 80)%Q) /\
  (getMetricColor v = high <-> (80 <= v)%Q) /\
  ((v <= v')%Q -> (color_rank (getMetricColor v) <= color_rank (getMetricColor v'))%nat).
Proof.
  unfold getMetricColor.
  destruct (Qltb v 50) eqn:E50; [apply Qltb_lt in E50 | apply Qltb_ge in E50];
  (destruct (Qltb v 80) eqn:E80; [apply Qltb_lt in E80 | apply Qltb_ge in E80]);
  (destruct (Qltb v' 50) eqn:F50; [apply Qltb_lt in F50 | apply Qltb_ge in F50]);
  (destruct (Qltb v' 80) eqn:F80; [apply Qltb_lt in F80 | apply Qltb_ge in F80]);
  repeat match goal with |- _ /\ _ => split | |- _ <-> _ => split end;
  try discriminate; try (intros; cbn; lra || lia);
  try (intros; exfalso; lra); try (intros [? ?]; exfalso; lra);
  try reflexivity; intros; try split; try lra; cbn; try lia; exfalso; lra.
Qed.

Lemma getMetricColor_thresholds_monotone_witness :
  (color_rank (getMetricColor 49) <= color_rank (getMetricColor 80))%nat.
Proof.
  apply (getMetricColor_thresholds_monotone 49 80). vm_compute. discriminate.
Defined.

Lemma other_class (s : string) :
  bool_decide (getStatusClass s = "other") =
  negb (bool_decide (s = "running")) && negb (bool_decide (s = "stopped")).
Proof.
  unfold getStatusClass.
  destruct (decide (s = "running")) as [-> | H1]; [reflexivity |].
  rewrite (bool_decide_eq_false_2 _ H1).
  destruct (decide (s = "stopped")) as [-> | H2]; [reflexivity |].
  rewrite (bool_decide_eq_false_2 _ H2). reflexivity.
Qed.

Lemma count_stats_partition (vms : list VM) :
  (running_vms (count_stats (Some vms)) + stopped_vms (count_stats (Some vms))
   + other_vms vms = length vms)%nat.
Proof.
  unfold count_stats, other_vms. simpl.
  induction vms as [| v vms IH]; [reflexivity |].
  simpl. rewrite other_class.
  destruct (decide (status v = "running")) as [Er | Er].
  - rewrite (bool_decide_eq_true_2 _ Er).
    rewrite (bool_decide_eq_false_2 (status v = "stopped")) by (rewrite Er; discriminate).
    simpl. lia.
  - rewrite (bool_decide_eq_false_2 _ Er).
    destruct (bool_decide (status v = "stopped")); simpl; lia.
Qed.

(** X2: [updateStats] writes the length of the array to both totals; the
    running, stopped and other-status VMs partition the array, so running
    plus stopped never exceeds the total; a value that is not an array, like
    the empty array, gives four zeros. *)
Theorem updateStats_counts (K : Type) (w : World K) (vms : list VM) :
  (vm_count (stats (state (run (updateStats (Some vms)) w))) = length vms /\
   total_vms (stats (state (run (updateStats (Some vms)) w))) = length vms /\
   (running_vms (stats (state (run (updateStats (Some vms)) w)))
    + stopped_vms (stats (state (run (updateStats (Some vms)) w)))
    + other_vms vms = length vms)%nat) /\
  stats (state (run (updateStats None) w)) = mkStats 0 0 0 0 /\
  stats (state (run (updateStats (Some [])) w)) = mkStats 0 0 0 0.
Proof.
  destruct w as [[creating cc cs nz cd an vl sts sb ld cb cm sz] ans tr inf nid].
  split; [| split; reflexivity].
  change (stats (state (run (updateStats (Some vms)) _)))
    with (count_stats (Some vms)).
  split; [reflexivity | split; [reflexivity | apply count_stats_partition]].
Qed.

End MoreMetrics.

(** ** Selecting a cluster and showing its list *)

Section MoreRefresh.
Import Metrics Js Browser Observe Watch.

Lemma truthy_nonempty (s : string) : s <> EmptyString -> truthy (Some s) = true.
Proof. intros H. unfold truthy. rewrite (bool_decide_eq_false_2 _ H). reflexivity. Qed.

Lemma falsy_nonempty (s : string) : s <> EmptyString -> falsy (Some s) = false.
Proof. intros H. unfold falsy. rewrite (truthy_nonempty s H). reflexivity. Qed.

(** X3: a change of the cluster selection records the cluster, shows its
    region label and sends at most one request.  With the empty choice the
    list asks to select a cluster, the counters are zero and nothing is
    sent; with a cluster one VM-list request for it is sent, and the list
    and counters of the previous cluster stay on screen until the answer. *)
Theorem onClusterChange_selects (w : World Auto.Kont) (clusterName : string) :
  (clusterSelect (state (Auto.react (Auto.SelectCluster clusterName) w)) = clusterName /\
   currentCluster (state (Auto.react (Auto.SelectCluster clusterName) w)) =
     Some clusterName /\
   clusterDisplay (state (Auto.react (Auto.SelectCluster clusterName) w)) =
     region_label clusterName) /\
  (clusterName = EmptyString ->
   vmList (state (Auto.react (Auto.SelectCluster clusterName) w)) = SelectClusterFirst /\
   stats (state (Auto.react (Auto.SelectCluster clusterName) w)) = mkStats 0 0 0 0 /\
   trace (Auto.react (Auto.SelectCluster clusterName) w) = trace w /\
   inflight (Auto.react (Auto.SelectCluster clusterName) w) = inflight w) /\
  (clusterName <> EmptyString ->
   vmList (state (Auto.react (Auto.SelectCluster clusterName) w)) = vmList (state w) /\
   stats (state (Auto.react (Auto.SelectCluster clusterName) w)) = stats (state w) /\
   trace (Auto.react (Auto.SelectCluster clusterName) w) =
     trace w ++ [Fetch (next_id w) (vms_request clusterName)] /\
   inflight (Auto.react (Auto.SelectCluster clusterName) w) =
     inflight w ++ [mkPending (next_id w) (vms_request clusterName)
                              (Auto.AfterVmsFetch clusterName)]).
Proof.
  destruct w as [[creating cc cs nz cd an vl sts sb ld cb cm sz] ans tr inf nid].
  unfold Auto.react, Auto.onClusterChange, Auto.loadVms, region_label.
  destruct (decide (clusterName = EmptyString)) as [-> | Hne].
  - split; [repeat split | split; [intros _; repeat split | intros Hc; contradiction]].
  - rewrite (truthy_nonempty clusterName Hne). run_js. cbn -[falsy].
    rewrite (falsy_nonempty clusterName Hne). simpl.
    split; [repeat split | split; [intros Hc; contradiction | intros _; repeat split]].
Qed.

Lemma onClusterChange_selects_witness :
  vmList (state (Auto.react (Auto.SelectCluster EmptyString)
                            (Auto.play shown_then (initial_world [])))) =
    SelectClusterFirst /\
  trace (Auto.react (Auto.SelectCluster "cluster_b") (initial_world [])) =
    [Fetch 0 (vms_request "cluster_b")].
Proof.
  split.
  - apply (onClusterChange_selects (Auto.play shown_then (initial_world []))
             EmptyString). reflexivity.
  - apply (onClusterChange_selects (initial_world []) "cluster_b"). discriminate.
Defined.

Lemma render_vm_shown (clusterName : string) (vm : VM) (item : VmItem) :
  Auto.render_vm clusterName vm = Some item ->
  shown item = vm /\ handlerCluster item = Some clusterName /\
  startDisabled item = negb (stopDisabled item) /\
  statusClass item = getStatusClass (status vm).
Proof.
  unfold Auto.render_vm. destruct (cpu vm); [| discriminate].
  intros [= <-]. cbn. rewrite negb_involutive. auto.
Qed.

Lemma render_vm_is_Some (clusterName : string) (vm : VM) :
  is_Some (Auto.render_vm clusterName vm) <-> is_Some (cpu vm).
Proof.
  unfold Auto.render_vm. destruct (cpu vm); split; intros [x H];
    try discriminate; eauto.
Qed.

Lemma render_all_shown (clusterName : string) (vms : list VM) (items : list VmItem) :
  mapM (Auto.render_vm clusterName) vms = Some items ->
  shown <$> items = vms /\
  Forall (fun i => handlerCluster i = Some clusterName /\
                   startDisabled i = negb (stopDisabled i)) items.
Proof.
  intros H. apply mapM_Some_1 in H.
  induction H as [| vm item vms items Hr _ [IH1 IH2]]; [split; constructor |].
  apply render_vm_shown in Hr. destruct Hr as (Hs & Hc & Hd & _).
  split; [cbn; congruence | constructor; auto].
Qed.

(** X4: an OK answer to a VM-list request is rendered all or nothing.
    When every VM of the array carries a CPU reading, the counters are those
    of the array and the list shows one entry per VM, in the order of the
    array, with the request's cluster in its buttons and exactly one of start
    and stop enabled (the empty array shows the no-VM text).  When one VM
    lacks the reading, none is shown: the list is the failure text and the
    counters stay as they were. *)
Theorem loadVms_renders_all_or_nothing (w : World Auto.Kont) (id : nat)
    (p : Pending Auto.Kont) (clusterName text : string) (json : Payload)
    (vms : list VM) :
  find_pending id w = Some p ->
  p_kont p = Auto.AfterVmsFetch clusterName ->
  vms_of json = Some vms ->
  (Forall (fun vm => is_Some (cpu vm)) vms ->
   stats (state (deliver Auto.resume id (Reply true text json) w)) =
     count_stats (Some vms) /\
   (vms = [] ->
    vmList (state (deliver Auto.resume id (Reply true text json) w)) = NoVms) /\
   (vms <> [] ->
    exists items,
      vmList (state (deliver Auto.resume id (Reply true text json) w)) =
        Items items /\
      shown <$> items = vms /\
      Forall (fun i => handlerCluster i = Some clusterName /\
                       startDisabled i = negb (stopDisabled i)) items)) /\
  (Exists (fun vm => cpu vm = None) vms ->
   vmList (state (deliver Auto.resume id (Reply true text json) w)) = LoadFailed /\
   stats (state (deliver Auto.resume id (Reply true text json) w)) =
     stats (state w)).
Proof.
  intros Hfind Hk Hvms.
  rewrite (auto_vms_response w id p clusterName _ Hfind Hk).
  assert (Herr : auto_refresh_error clusterName (Reply true text json) =
                 match mapM (Auto.render_vm clusterName) vms with
                 | Some _ => None
                 | None => Some "TypeError"
                 end).
  { destruct json; cbn in Hvms; try discriminate;
      injection Hvms as ->; reflexivity. }
  rewrite Herr. unfold auto_view. cbn [response_vms]. rewrite Hvms.
  destruct w as [[creating cc cs nz cd an vl sts sb ld cb cm sz] ans tr inf nid].
  split.
  - intros Hall.
    assert (Hsome : is_Some (mapM (Auto.render_vm clusterName) vms)).
    { apply mapM_is_Some. eapply Forall_impl; [exact Hall |].
      intros vm Hc. apply render_vm_is_Some. exact Hc. }
    destruct Hsome as [items Hitems].
    destruct vms as [| vm vms'].
    + cbn. split; [reflexivity |].
      split; [reflexivity | intros Hne; contradiction].
    + rewrite !Hitems. cbn.
      split; [reflexivity |]. split; [discriminate |].
      intros _. exists items. split; [reflexivity |].
      apply render_all_shown. exact Hitems.
  - intros Hex.
    assert (Hnone : mapM (Auto.render_vm clusterName) vms = None).
    { apply mapM_None. eapply Exists_impl; [exact Hex |].
      intros vm Hc. unfold Auto.render_vm. rewrite Hc. reflexivity. }
    rewrite Hnone. cbn. auto.
Qed.

Lemma loadVms_renders_all_or_nothing_witness :
  vmList (state (deliver Auto.resume 0
                   (Reply true EmptyString
                      (VmsArray [web; mkVM 7 "x" "pve1" "running" None None None None None]))
                   (Auto.react (Auto.SelectCluster "cluster_a") (initial_world [])))) =
    LoadFailed.
Proof.
  apply (loadVms_renders_all_or_nothing
           (Auto.react (Auto.SelectCluster "cluster_a") (initial_world []))
           0 (mkPending 0 (vms_request "cluster_a") (Auto.AfterVmsFetch "cluster_a"))
           "cluster_a" EmptyString
           (VmsArray [web; mkVM 7 "x" "pve1" "running" None None None None None])
           [web; mkVM 7 "x" "pve1" "running" None None None None None]
           eq_refl eq_refl eq_refl).
  apply Exists_cons_tl, Exists_cons_hd. reflexivity.
Defined.

End MoreRefresh.

(** ** Answers to a creation and to a reconfiguration *)

Section MoreAnswers.
Import Metrics Js Browser Observe Watch.

(** X5: whatever answers a creation request (OK, refused, unreadable
    body, network failure), the creation flag is released, the submit button
    is enabled again and the loading line is hidden.  After an OK answer the
    cluster selection is put back to what it was at submission, without the
    region label being updated, and one VM-list request for that cluster
    follows (none when it is empty); after any other answer an error is
    logged and alerted, the selection is left alone and nothing is sent. *)
Theorem handleVmCreate_answer_releases (w : World Auto.Kont) (id : nat)
    (p : Pending Auto.Kont) (clusterName : string) (res : Response) :
  find_pending id w = Some p ->
  p_kont p = Auto.AfterCreateFetch clusterName ->
  (isCreating (state (deliver Auto.resume id res w)) = false /\
   submitBtn (state (deliver Auto.resume id res w)) =
     mkButton false "🚀 VM 생성 (최저 부하 노드 자동 선택)" /\
   displayed (loading (state (deliver Auto.resume id res w))) = false) /\
  (ok_json res = true ->
   clusterSelect (state (deliver Auto.resume id res w)) = clusterName /\
   clusterDisplay (state (deliver Auto.resume id res w)) = clusterDisplay (state w) /\
   requests (trace (deliver Auto.resume id res w)) =
     requests (trace w) ++
     (if bool_decide (clusterName = EmptyString) then []
      else [vms_request clusterName])) /\
  (ok_json res = false ->
   clusterSelect (state (deliver Auto.resume id res w)) = clusterSelect (state w) /\
   trace (deliver Auto.resume id res w) =
     trace w ++ [ConsoleError "VM 생성 실패:" (failure_text res);
                 Alert (CreateFailed (failure_text res))] /\
   inflight (deliver Auto.resume id res w) = inflight (remove_pending id w)).
Proof.
  intros Hfind Hk. unfold deliver. rewrite Hfind, Hk. cbn [Auto.resume].
  unfold Auto.handleVmCreate_resume, Auto.create_catch, Auto.create_finally,
    Auto.loadVms, falsy, truthy, remove_pending.
  destruct w as [[creating cc cs nz cd an vl sts sb ld cb cm sz] ans tr inf nid].
  destruct res as [message | [] text json]; [| destruct json |];
    run_js; simpl;
    try (destruct (bool_decide (clusterName = EmptyString)); simpl);
    (split; [repeat split |
     split; [intros Hok; try discriminate Hok | intros Hok; try discriminate Hok]]);
    repeat split; rewrite ?requests_app; simpl; rewrite ?app_nil_r;
    rewrite <- ?app_assoc; reflexivity.
Qed.

Lemma handleVmCreate_answer_releases_witness :
  isCreating (state (deliver Auto.resume 0 (NetworkFailure "Failed to fetch")
     (run (Auto.handleVmCreate {[ "cluster_name" := "cluster_a" ]})
          (initial_world [])))) = false.
Proof.
  apply (handleVmCreate_answer_releases
           (run (Auto.handleVmCreate {[ "cluster_name" := "cluster_a" ]})
                (initial_world []))
           0 (mkPending 0 (create_request (encoded {[ "cluster_name" := "cluster_a" ]}))
                        (Auto.AfterCreateFetch EmptyString))
           EmptyString (NetworkFailure "Failed to fetch")); reflexivity.
Defined.

(** X6: whatever answers a reconfiguration request, the submit button of
    the dialog is enabled again with the text it had before.  After an OK
    answer the dialog is closed, the completion is alerted and the list is
    refreshed; after a refusal or a network failure the error is logged and
    alerted, the dialog stays as it was and nothing is sent. *)
Theorem configForm_answer_restores (w : World Auto.Kont) (id : nat)
    (p : Pending Auto.Kont) (formData : gmap string string)
    (originalText : string) (res : Response) :
  find_pending id w = Some p ->
  p_kont p = Auto.AfterConfigFetch formData originalText ->
  configSubmitBtn (state (deliver Auto.resume id res w)) =
    mkButton false originalText /\
  (ok_status res = true ->
   configModalActive (state (deliver Auto.resume id res w)) = false /\
   deliver Auto.resume id res w =
     run (modify (set_configSubmitBtn (mkButton false originalText)))
       (run Auto.loadVms
          (run (modify (set_configModalActive false))
             (after_events [Alert (ConfigDone formData)] (remove_pending id w))))) /\
  (ok_status res = false ->
   configModalActive (state (deliver Auto.resume id res w)) =
     configModalActive (state w) /\
   trace (deliver Auto.resume id res w) =
     trace w ++ [ConsoleError "설정 변경 실패:" (failure_text res);
                 Alert (ConfigFailed (failure_text res))] /\
   inflight (deliver Auto.resume id res w) = inflight (remove_pending id w)).
Proof.
  intros Hfind Hk. unfold deliver. rewrite Hfind, Hk. cbn [Auto.resume].
  unfold Auto.configForm_resume, Auto.closeConfigModal,
    Auto.loadVms, falsy, truthy, remove_pending.
  destruct w as [[creating cc cs nz cd an vl sts sb ld cb cm sz] ans tr inf nid].
  destruct res as [message | [] text json];
    run_js; simpl;
    try (destruct (bool_decide (cs = EmptyString)); simpl);
    (split; [reflexivity |
     split; [intros Hok; try discriminate Hok | intros Hok; try discriminate Hok]]);
    repeat split; rewrite <- ?app_assoc; reflexivity.
Qed.

Lemma configForm_answer_restores_witness :
  configSubmitBtn
    (state (deliver Auto.resume 0 (Reply false "locked" OtherObject)
       (run (Auto.configForm_submit {[ "resize" := "25" ]}) page_with_disk_20))) =
    mkButton false EmptyString.
Proof.
  apply (configForm_answer_restores
           (run (Auto.configForm_submit {[ "resize" := "25" ]}) page_with_disk_20)
           0 (mkPending 0 (config_request (encoded {[ "resize" := "25" ]}))
                (Auto.AfterConfigFetch (encoded {[ "resize" := "25" ]}) EmptyString))
           (encoded {[ "resize" := "25" ]}) EmptyString
           (Reply false "locked" OtherObject)); reflexivity.
Defined.

End MoreAnswers.

(** ** The earlier revision *)

Section MoreLegacy.
Import Metrics Js Browser Observe Watch.

Lemma prompts_app (t1 t2 : list Event) :
  prompts (t1 ++ t2) = (prompts t1 + prompts t2)%nat.
Proof. unfold prompts. rewrite List.filter_app, length_app. reflexivity. Qed.

Lemma prompts_confirm (t : list Event) (m : Message) (a : bool) :
  prompts (t ++ [Confirm m a]) = S (prompts t).
Proof. rewrite prompts_app. cbn. lia. Qed.

Lemma prompts_fetch (t : list Event) (id : nat) (r : Request) :
  prompts (t ++ [Fetch id r]) = prompts t.
Proof. rewrite prompts_app. cbn. lia. Qed.

Lemma requests_confirm (t : list Event) (m : Message) (a : bool) :
  requests (t ++ [Confirm m a]) = requests t.
Proof. rewrite requests_app. cbn. apply app_nil_r. Qed.

(** X7: in the earlier revision a delete goes through two dialogs, the
    status-dependent one of [confirmDelete] and then the generic one of
    [controlVm].  The delete request is sent exactly when the operator
    confirms both; declining the first shows one dialog, otherwise two are
    shown; the page state is not touched either way. *)
Theorem legacy_delete_needs_two_confirmations (w : World Legacy.Kont)
    (node : string) (vmid : Z) (name status : string) :
  requests (trace (run (Legacy.confirmDelete node vmid name status) w)) =
    requests (trace w) ++
    (if hd false (answers w) && hd false (tl (answers w))
     then [legacy_control_request node vmid delete] else []) /\
  prompts (trace (run (Legacy.confirmDelete node vmid name status) w)) =
    (prompts (trace w) + (if hd false (answers w) then 2 else 1))%nat /\
  state (run (Legacy.confirmDelete node vmid name status) w) = state w /\
  answers (run (Legacy.confirmDelete node vmid name status) w) =
    (if hd false (answers w) then tl (tl (answers w)) else tl (answers w)).
Proof.
  unfold Legacy.confirmDelete, Legacy.controlVm.
  destruct w as [st ans tr inf nid].
  destruct ans as [| [] [| [] rest]]; run_js; simpl;
    rewrite ?requests_sent, ?prompts_fetch, ?requests_confirm, ?prompts_confirm;
    rewrite ?app_nil_r; repeat split; lia.
Qed.

End MoreLegacy.

(** ** One creation at a time *)

Section MoreCreate.
Import Metrics Js Browser Observe Watch.

Lemma filter_other_id (l : list (Pending Auto.Kont)) (id : nat) :
  ~ In id (List.map p_id l) ->
  List.filter (fun p => negb (Nat.eqb (p_id p) id)) l = l.
Proof.
  induction l as [| q l IH]; [reflexivity |]. cbn. intros Hnin.
  destruct (Nat.eqb_spec (p_id q) id) as [E | E]; [tauto |].
  cbn. rewrite IH by tauto. reflexivity.
Qed.

Lemma creations_removed (l : list (Pending Auto.Kont)) (id : nat)
    (p : Pending Auto.Kont) :
  NoDup (List.map p_id l) ->
  List.find (fun q => Nat.eqb (p_id q) id) l = Some p ->
  (length (List.filter is_create
             (List.filter (fun q => negb (Nat.eqb (p_id q) id)) l))
   + (if is_create p then 1 else 0) = length (List.filter is_create l))%nat.
Proof.
  induction l as [| q l IH]; [discriminate |]. cbn.
  intros Hnd Hfind. inversion Hnd as [| ? ? Hnin Hnd']; subst.
  destruct (Nat.eqb_spec (p_id q) id) as [E | E]; cbn.
  - injection Hfind as <-. rewrite list_elem_of_In in Hnin.
    rewrite filter_other_id by (rewrite <- E; exact Hnin).
    destruct (is_create q); cbn; lia.
  - specialize (IH Hnd' Hfind). destruct (is_create q); cbn; lia.
Qed.

Lemma well_numbered_removed (w : World Auto.Kont) (id : nat) :
  well_numbered w -> well_numbered (remove_pending id w).
Proof.
  intros [Hlt Hnd]. unfold well_numbered, remove_pending; cbn.
  split.
  - apply Forall_forall. intros q Hq.
    apply list_elem_of_In, filter_In in Hq.
    rewrite Forall_forall in Hlt. apply Hlt, list_elem_of_In. tauto.
  - clear Hlt. induction (inflight w) as [| q l IH]; [constructor |].
    cbn in *. inversion Hnd as [| ? ? Hnin Hnd']; subst.
    destruct (Nat.eqb (p_id q) id); cbn; [auto |].
    constructor; [| auto].
    rewrite list_elem_of_In in Hnin |- *.
    intros Hin. apply Hnin. apply in_map_iff in Hin.
    destruct Hin as (x & Hx & Hin). apply filter_In in Hin.
    apply in_map_iff. exists x. tauto.
Qed.

Lemma well_numbered_sent (w w' : World Auto.Kont) (r : Request) (k : Auto.Kont) :
  well_numbered w ->
  inflight w' = inflight w ++ [mkPending (next_id w) r k] ->
  next_id w' = S (next_id w) ->
  well_numbered w'.
Proof.
  intros [Hlt Hnd] Hin Hnext. unfold well_numbered. rewrite Hin, Hnext.
  rewrite Forall_forall in Hlt. split.
  - apply Forall_forall. intros q Hq.
    apply list_elem_of_In, in_app_iff in Hq.
    destruct Hq as [Hq | [<- | []]];
      [apply list_elem_of_In in Hq; specialize (Hlt q Hq) |]; cbn; lia.
  - rewrite map_app. cbn. apply NoDup_app. split; [exact Hnd |].
    split; [| apply NoDup_singleton].
    intros x Hx Hx'. apply list_elem_of_In, in_map_iff in Hx.
    destruct Hx as (q & <- & Hq). apply list_elem_of_In in Hq.
    specialize (Hlt q Hq).
    apply list_elem_of_In in Hx'. destruct Hx' as [Hx' | []]. lia.
Qed.

(** A step that sends at most one request, no creation, and leaves the
    flag alone keeps the guard. *)
Lemma guarded_step (w w' : World Auto.Kont) :
  create_guarded w ->
  isCreating (state w') = isCreating (state w) ->
  sent_at_most_one_other w w' ->
  create_guarded w'.
Proof.
  intros [Hwn Hc] Hflag [[Hin Hnext] | (r & k & Hk & Hin & Hnext)].
  - split.
    + unfold well_numbered in *. rewrite Hin, Hnext. exact Hwn.
    + unfold creations_in_flight in *. rewrite Hin, Hflag. exact Hc.
  - split; [eapply well_numbered_sent; eauto |].
    unfold creations_in_flight in *. rewrite Hin, Hflag, List.filter_app, length_app.
    rewrite Hc. cbn. unfold is_create; cbn.
    destruct k; try (exfalso; eapply Hk; reflexivity); cbn; lia.
Qed.


(** The handlers other than the creation leave the flag alone and send at
    most one request, which is no creation. *)
Lemma other_inputs_quiet (i : Auto.Input) (w : World Auto.Kont) :
  match i with
  | Auto.SubmitCreate _ | Auto.Arrives _ _ => False
  | _ => True
  end ->
  isCreating (state (Auto.react i w)) = isCreating (state w) /\
  sent_at_most_one_other w (Auto.react i w).
Proof.
  intros Hi. unfold sent_at_most_one_other.
  destruct w as [[creating cc cs nz cd an vl sts sb ld cb cm sz] ans tr inf nid].
  destruct i as [c | | | c n v | c n v | c n v nm st | form | form | id res];
    try contradiction;
    unfold Auto.react, Auto.onClusterChange, Auto.controlVm, Auto.confirmDelete,
      Auto.configForm_submit, Auto.loadVms;
    run_js; simpl; quiet_cases.
Qed.

(** The rest of a handler, run on the answer to its request. *)
Lemma resume_quiet (k : Auto.Kont) (res : Response) (w : World Auto.Kont) :
  isCreating (state (run (Auto.resume k res) w)) =
    match k with
    | Auto.AfterCreateFetch _ => false
    | _ => isCreating (state w)
    end /\
  sent_at_most_one_other w (run (Auto.resume k res) w).
Proof.
  unfold sent_at_most_one_other.
  destruct w as [[creating cc cs nz cd an vl sts sb ld cb cm sz] ans tr inf nid].
  destruct k as [c | a | c | form txt]; cbn [Auto.resume];
    unfold Auto.loadVms_resume, Auto.controlVm_resume, Auto.handleVmCreate_resume,
      Auto.configForm_resume, Auto.create_catch, Auto.create_finally,
      Auto.closeConfigModal, Auto.loadVms;
    (destruct res as [message | [] text json];
     [| destruct json as [| [| vm vms] | [| vm vms] | v n nm |] |]);
    run_js; cbn [vms_of];
    try match goal with
        | |- context [@mapM ?M ?H ?H0 ?A ?B ?f ?l] =>
            destruct (@mapM M H H0 A B f l)
        end;
    simpl; quiet_cases.
Qed.


Lemma submit_guarded (form : gmap string string) (w : World Auto.Kont) :
  create_guarded w -> create_guarded (run (Auto.handleVmCreate form) w).
Proof.
  intros Hg. rewrite auto_handleVmCreate_run.
  destruct (isCreating (state w)) eqn:Hflag; [exact Hg |].
  destruct Hg as [Hwn Hc]. rewrite Hflag in Hc.
  destruct (truthy (form !! "cluster_name")).
  - split.
    + eapply well_numbered_sent; [exact Hwn | reflexivity | reflexivity].
    + unfold creations_in_flight in *. cbn [create_sent inflight].
      rewrite List.filter_app, length_app, Hc.
      destruct w as [[creating cc cs nz cd an vl sts sb ld cb cm sz] ans tr inf nid].
      reflexivity.
  - split.
    + exact Hwn.
    + unfold creations_in_flight in *. cbn [create_failed inflight]. rewrite Hc.
      destruct w as [[creating cc cs nz cd an vl sts sb ld cb cm sz] ans tr inf nid].
      reflexivity.
Qed.

Lemma arrival_guarded (id : nat) (res : Response) (w : World Auto.Kont) :
  create_guarded w -> create_guarded (deliver Auto.resume id res w).
Proof.
  intros [Hwn Hc]. unfold deliver.
  destruct (find_pending id w) as [p |] eqn:Hfind; [| split; assumption].
  pose proof (well_numbered_removed w id Hwn) as Hwn1.
  pose proof (creations_removed (inflight w) id p (proj2 Hwn) Hfind) as Hrem.
  fold (creations_in_flight w) in Hrem. rewrite Hc in Hrem.
  destruct (resume_quiet (p_kont p) res (remove_pending id w)) as [Hflag Hsent].
  destruct (is_create p) eqn:Hp.
  - assert (Hone : isCreating (state w) = true).
    { destruct (isCreating (state w)); [reflexivity | lia]. }
    rewrite Hone in Hrem.
    set (w1 := mkWorld (set_isCreating false (state w)) (answers w) (trace w)
                       (inflight (remove_pending id w)) (next_id w)).
    apply (guarded_step w1).
    + split; [exact Hwn1 |].
      unfold creations_in_flight, w1; cbn [inflight state].
      replace (isCreating (set_isCreating false (state w))) with false
        by (destruct (state w); reflexivity).
      unfold remove_pending in Hrem |- *; cbn [inflight] in Hrem |- *. lia.
    + rewrite Hflag. unfold is_create in Hp.
      destruct (p_kont p); try discriminate.
      unfold w1; cbn [state]. destruct (state w); reflexivity.
    + exact Hsent.
  - apply (guarded_step (remove_pending id w)).
    + split; [exact Hwn1 |].
      unfold creations_in_flight, remove_pending in *; cbn [inflight state] in *.
      rewrite <- Hrem. lia.
    + rewrite Hflag. unfold is_create in Hp.
      destruct (p_kont p); try discriminate; reflexivity.
    + exact Hsent.
Qed.

Lemma react_guarded (i : Auto.Input) (w : World Auto.Kont) :
  create_guarded w -> create_guarded (Auto.react i w).
Proof.
  intros Hg.
  destruct i as [c | | | c n v | c n v | c n v nm st | form | form | id res];
    try match goal with
        | |- create_guarded (Auto.react ?i w) =>
            destruct (other_inputs_quiet i w I) as [Hflag Hsent];
            exact (guarded_step w _ Hg Hflag Hsent)
        end.
  - apply submit_guarded. exact Hg.
  - apply arrival_guarded. exact Hg.
Qed.

Lemma play_guarded (inputs : list Auto.Input) (w : World Auto.Kont) :
  create_guarded w -> create_guarded (Auto.play inputs w).
Proof.
  revert w. induction inputs as [| i inputs IH]; intros w Hg; [exact Hg |].
  cbn. apply IH. apply react_guarded. exact Hg.
Qed.

(** X8: whatever the operator does and in whatever order the answers
    arrive, at most one creation of the first revision is in flight, and the
    creation flag is set exactly while one is: a form submitted meanwhile is
    dropped with no effect at all. *)
Theorem one_creation_at_a_time (inputs : list Auto.Input) (answers : list bool)
    (form : gmap string string) :
  (creations_in_flight (Auto.play inputs (initial_world answers)) <= 1)%nat /\
  (isCreating (state (Auto.play inputs (initial_world answers))) = true <->
   creations_in_flight (Auto.play inputs (initial_world answers)) = 1%nat) /\
  (creations_in_flight (Auto.play inputs (initial_world answers)) = 1%nat ->
   Auto.react (Auto.SubmitCreate form)
              (Auto.play inputs (initial_world answers)) =
     Auto.play inputs (initial_world answers)).
Proof.
  assert (Hg : create_guarded (Auto.play inputs (initial_world answers))).
  { apply play_guarded. split; [split; constructor | reflexivity]. }
  destruct Hg as [_ Hc].
  set (w := Auto.play inputs (initial_world answers)) in *.
  destruct (isCreating (state w)) eqn:Hflag.
  - rewrite Hc. split; [lia |]. split; [tauto |].
    intros _. unfold Auto.react. rewrite auto_handleVmCreate_run, Hflag.
    reflexivity.
  - rewrite Hc. split; [lia |]. split; [split; [discriminate | lia] | lia].
Qed.

Lemma one_creation_at_a_time_witness :
  Auto.react (Auto.SubmitCreate {[ "cluster_name" := "cluster_b" ]})
    (Auto.play [Auto.SubmitCreate {[ "cluster_name" := "cluster_a" ]}]
               (initial_world [])) =
  Auto.play [Auto.SubmitCreate {[ "cluster_name" := "cluster_a" ]}]
            (initial_world []).
Proof.
  apply (one_creation_at_a_time
           [Auto.SubmitCreate {[ "cluster_name" := "cluster_a" ]}] []
           {[ "cluster_name" := "cluster_b" ]}).
  reflexivity.
Defined.

End MoreCreate.

(** ** The configuration dialog *)

Section MoreDialog.
Import Metrics Js Browser Observe Watch JsNumber ConfigDialog.

Lemma parse_digits_acc (d : Decimal.uint) (acc : positive) :
  parse_digits 10 (DecimalString.NilEmpty.string_of_uint d) (Some (Z.pos acc)) =
  Some (Z.pos (Pos.of_uint_acc d acc)).
Proof.
  revert acc. induction d; intros acc; cbn [DecimalString.NilEmpty.string_of_uint
    Pos.of_uint_acc parse_digits]; [reflexivity | ..];
    match goal with
    | |- context [digit_val 10 ?c] =>
        let v := eval vm_compute in (digit_val 10 c) in
        change (digit_val 10 c) with v
    end; cbn [default];
    match goal with
    | |- parse_digits 10 _ (Some ?a) = Some (Z.pos (Pos.of_uint_acc _ ?b)) =>
        replace a with (Z.pos b) by (unfold id; lia); apply IHd
    end.
Qed.

Lemma parse_digits_uint (d : Decimal.uint) :
  parse_digits 10 (DecimalString.NilEmpty.string_of_uint d) (Some 0) =
  Some (Z.of_N (Pos.of_uint d)).
Proof.
  induction d; cbn [DecimalString.NilEmpty.string_of_uint Pos.of_uint parse_digits];
    [reflexivity | ..];
    match goal with
    | |- context [digit_val 10 ?c] =>
        let v := eval vm_compute in (digit_val 10 c) in
        change (digit_val 10 c) with v
    end; cbn [default]; unfold id; cbn [Z.mul Z.add];
    [exact IHd | ..]; apply (parse_digits_acc d).
Qed.

Lemma parse_digits_start (d : Decimal.uint) :
  d <> Decimal.Nil ->
  parse_digits 10 (DecimalString.NilEmpty.string_of_uint d) None =
  Some (Z.of_N (Pos.of_uint d)).
Proof.
  intros Hd. destruct d; [contradiction | ..];
    cbn [DecimalString.NilEmpty.string_of_uint Pos.of_uint parse_digits];
    match goal with
    | |- context [digit_val 10 ?c] =>
        let v := eval vm_compute in (digit_val 10 c) in
        change (digit_val 10 c) with v
    end; cbn [default]; unfold id; cbn [Z.mul Z.add];
    [apply parse_digits_uint | ..]; apply (parse_digits_acc d).
Qed.

Lemma digits_no_hex_prefix (d : Decimal.uint) :
  strip_hex_prefix (DecimalString.NilEmpty.string_of_uint d) = None.
Proof. destruct d as [| d | d | d | d | d | d | d | d | d | d]; try reflexivity.
  destruct d; reflexivity.
Qed.

(** The decimal text of a number, as [parseInt] sees it: no white space,
    no sign and no hexadecimal prefix in front of the digits. *)
Lemma parseInt_uint (d : Decimal.uint) :
  d <> Decimal.Nil ->
  parseInt (Some (DecimalString.NilEmpty.string_of_uint d)) =
  Some (Z.of_N (Pos.of_uint d)).
Proof.
  intros Hd.
  assert (E : parseInt (Some (DecimalString.NilEmpty.string_of_uint d)) =
              (fun n => 1 * n) <$>
              match strip_hex_prefix (DecimalString.NilEmpty.string_of_uint d) with
              | Some s' => parse_digits 16 s' None
              | None => parse_digits 10 (DecimalString.NilEmpty.string_of_uint d) None
              end).
  { destruct d; [contradiction | reflexivity ..]. }
  rewrite E, digits_no_hex_prefix, (parse_digits_start d Hd). cbn.
  f_equal. destruct (Pos.of_uint d); reflexivity.
Qed.

Lemma parseInt_Number_toString (n : Z) :
  parseInt (Some (Number_toString n)) = Some n.
Proof.
  destruct n as [| p | p]; [reflexivity | |];
    unfold Number_toString; cbn [Z.to_int DecimalString.NilZero.string_of_int];
    pose proof (DecimalPos.Unsigned.to_uint_nonnil p) as Hnil;
    replace (DecimalString.NilZero.string_of_uint (Pos.to_uint p))
      with (DecimalString.NilEmpty.string_of_uint (Pos.to_uint p))
      by (destruct (Pos.to_uint p); [contradiction | reflexivity ..]).
  - rewrite (parseInt_uint _ Hnil), DecimalPos.Unsigned.of_to. reflexivity.
  - change (parseInt (Some (String "-" (DecimalString.NilEmpty.string_of_uint (Pos.to_uint p)))))
      with ((fun n => -1 * n) <$>
            match strip_hex_prefix (DecimalString.NilEmpty.string_of_uint (Pos.to_uint p)) with
            | Some s' => parse_digits 16 s' None
            | None => parse_digits 10 (DecimalString.NilEmpty.string_of_uint (Pos.to_uint p)) None
            end).
    rewrite digits_no_hex_prefix, (parse_digits_start _ Hnil),
      DecimalPos.Unsigned.of_to. reflexivity.
Qed.

Lemma num_or_stored (x : option Z) (d : Z) :
  d <> 0 -> num_or (parseInt (Some (Number_toString (num_or x d)))) d = num_or x d.
Proof.
  intros Hd. rewrite parseInt_Number_toString. unfold num_or at 1.
  destruct (Z.eqb_spec (num_or x d) 0) as [E | E]; [| reflexivity].
  exfalso. revert E. unfold num_or. destruct x as [z |]; [| exact Hd].
  destruct (Z.eqb_spec z 0); auto.
Qed.

(** X9: when the configuration of a VM arrives, the dialog stores
    [disk_size || 20] as the current size and shows it in the size field;
    read back by the submit listener it is that same number, so a later
    submission that asks for less is refused with this size in the alert. *)
Theorem openConfigModal_stores_current_size (clusterName node : string)
    (vmid : Z) (name text : string) (config : Config) (d : Dialog)
    (w : World Kont) (wa : World Auto.Kont) (form : gmap string string) (N : Z) :
  (currentSize (state (snd (opened clusterName node vmid name
                              (ConfigReply true text (Some config)) (d, w)))) =
     Some (Number_toString (num_or (disk_size config) 20)) /\
   configResize (fst (opened clusterName node vmid name
                        (ConfigReply true text (Some config)) (d, w))) =
     Number_toString (num_or (disk_size config) 20) /\
   configVmid (fst (opened clusterName node vmid name
                      (ConfigReply true text (Some config)) (d, w))) =
     Number_toString vmid /\
   configLoading (fst (opened clusterName node vmid name
                         (ConfigReply true text (Some config)) (d, w))) = false /\
   configModalActive (state (snd (opened clusterName node vmid name
                                    (ConfigReply true text (Some config)) (d, w)))) =
     true) /\
  (state wa = state (snd (opened clusterName node vmid name
                            (ConfigReply true text (Some config)) (d, w))) ->
   current_disk wa = num_or (disk_size config) 20 /\
   (parseInt (form !! "resize") = Some N ->
    N < num_or (disk_size config) 20 ->
    run (Auto.configForm_submit form) wa =
      after_events
        [Alert (DiskShrinkRefused (num_or (disk_size config) 20) (Some N))] wa)).
Proof.
  assert (Hst : currentSize (state (snd (opened clusterName node vmid name
                   (ConfigReply true text (Some config)) (d, w)))) =
                Some (Number_toString (num_or (disk_size config) 20))).
  { destruct w as [[creating cc cs nz cd an vl sts sb ld cb cm sz] ans tr inf nid].
    reflexivity. }
  split.
  - split; [exact Hst |].
    destruct w as [[creating cc cs nz cd an vl sts sb ld cb cm sz] ans tr inf nid].
    repeat split.
  - intros Hwa.
    assert (Hcur : current_disk wa = num_or (disk_size config) 20).
    { unfold current_disk. rewrite Hwa, Hst. apply num_or_stored. discriminate. }
    split; [exact Hcur |].
    intros HN Hlt. rewrite (auto_configForm_submit_run wa form N HN), Hcur.
    destruct (Z.ltb_spec N (num_or (disk_size config) 20)); [reflexivity | lia].
Qed.

Lemma openConfigModal_stores_current_size_witness :
  run (Auto.configForm_submit {[ "resize" := "30" ]})
      (mkWorld (state (snd (opened "cluster_a" "pve1" 101 "web"
                  (ConfigReply true EmptyString
                     (Some (mkConfig (Some 2) (Some 2048) (Some 40) (Some "40G"))))
                  (closed_dialog, initial_world []))))
               [] [] [] 0) =
    after_events [Alert (DiskShrinkRefused 40 (Some 30))]
      (mkWorld (state (snd (opened "cluster_a" "pve1" 101 "web"
                  (ConfigReply true EmptyString
                     (Some (mkConfig (Some 2) (Some 2048) (Some 40) (Some "40G"))))
                  (closed_dialog, initial_world []))))
               [] [] [] 0).
Proof.
  apply (openConfigModal_stores_current_size "cluster_a" "pve1" 101 "web"
           EmptyString (mkConfig (Some 2) (Some 2048) (Some 40) (Some "40G"))
           closed_dialog (initial_world []) _ {[ "resize" := "30" ]} 30);
    vm_compute; reflexivity.
Defined.

(** X10: when the configuration cannot be loaded (network failure,
    refusal, unreadable body), the dialog names the new VM but resets
    nothing: the three fields and the stored current size are those left by
    the dialog's last use, whatever the failure text says about defaults,
    and the submit listener goes on comparing with that earlier size. *)
Theorem openConfigModal_failure_keeps_previous (clusterName node : string)
    (vmid : Z) (name : string) (res : ConfigResponse) (d : Dialog)
    (w : World Kont) (wa : World Auto.Kont) :
  config_of res = None ->
  fst (opened clusterName node vmid name res (d, w)) =
    mkDialog (name ++ " 설정 변경")%string clusterName node (Number_toString vmid)
             (configVcpu d) (configMemory d) (configResize d)
             ConfigLoadFailed false /\
  state (snd (opened clusterName node vmid name res (d, w))) =
    set_configModalActive true (state w) /\
  currentSize (state (snd (opened clusterName node vmid name res (d, w)))) =
    currentSize (state w) /\
  (state wa = state (snd (opened clusterName node vmid name res (d, w))) ->
   current_disk wa = current_disk w).
Proof.
  intros Hres.
  assert (Hst : state (snd (opened clusterName node vmid name res (d, w))) =
                set_configModalActive true (state w)).
  { destruct w as [st ans tr inf nid].
    destruct res as [message | [] text [config |]]; try discriminate; reflexivity. }
  split; [| split; [exact Hst | split]].
  - destruct w as [st ans tr inf nid].
    destruct res as [message | [] text [config |]]; try discriminate; reflexivity.
  - rewrite Hst. destruct (state w); reflexivity.
  - intros Hwa. unfold current_disk. rewrite Hwa, Hst.
    destruct (state w); reflexivity.
Qed.

Lemma openConfigModal_failure_keeps_previous_witness :
  currentSize
    (state (snd (opened "cluster_a" "pve2" 202 "db" (ConfigUnreachable "Failed to fetch")
              (opened "cluster_a" "pve1" 101 "web"
                 (ConfigReply true EmptyString
                    (Some (mkConfig (Some 2) (Some 2048) (Some 40) (Some "40G"))))
                 (closed_dialog, initial_world []))))) =
    Some "40" /\
  configVmid
    (fst (opened "cluster_a" "pve2" 202 "db" (ConfigUnreachable "Failed to fetch")
            (opened "cluster_a" "pve1" 101 "web"
               (ConfigReply true EmptyString
                  (Some (mkConfig (Some 2) (Some 2048) (Some 40) (Some "40G"))))
               (closed_dialog, initial_world [])))) = "202".
Proof.
  pose proof (openConfigModal_failure_keeps_previous "cluster_a" "pve2" 202 "db"
                (ConfigUnreachable "Failed to fetch")
                (fst (opened "cluster_a" "pve1" 101 "web"
                        (ConfigReply true EmptyString
                           (Some (mkConfig (Some 2) (Some 2048) (Some 40) (Some "40G"))))
                        (closed_dialog, initial_world [])))
                (snd (opened "cluster_a" "pve1" 101 "web"
                        (ConfigReply true EmptyString
                           (Some (mkConfig (Some 2) (Some 2048) (Some 40) (Some "40G"))))
                        (closed_dialog, initial_world [])))
                (initial_world []) eq_refl) as H.
  split.
  - exact (proj1 (proj2 (proj2 H))).
  - exact (f_equal configVmid (proj1 H)).
Defined.

End MoreDialog.

(** ** The login state in local storage *)

Section MoreStorage.
Import Js Storage.

(** X11: what [setStorage] writes is what [getStorage] reads back, the
    flag as the text of the boolean: a stored [false] comes back as the
    non-empty, hence truthy, string.  The other keys of the storage are not
    touched, and a second [setStorage] overrides the first. *)
Theorem setStorage_getStorage (flag flag' : bool) (name name' key : string)
    (localStorage : gmap string string) :
  getStorage (setStorage flag name localStorage) =
    mkLoginState (Some (if flag then "true" else "false")) (Some name) /\
  truthy (isLogin (getStorage (setStorage flag name localStorage))) = true /\
  (key <> IS_LOGIN -> key <> USER_NAME ->
   setStorage flag name localStorage !! key = localStorage !! key) /\
  setStorage flag' name' (setStorage flag name localStorage) =
    setStorage flag' name' localStorage.
Proof.
  unfold getStorage, setStorage.
  assert (Hne : USER_NAME <> IS_LOGIN) by discriminate.
  split; [| split; [| split]].
  - rewrite lookup_insert_ne by exact Hne.
    rewrite !lookup_insert_eq. reflexivity.
  - cbn [isLogin]. rewrite lookup_insert_ne by exact Hne.
    rewrite lookup_insert_eq. destruct flag; reflexivity.
  - intros H1 H2. rewrite !lookup_insert_ne by congruence. reflexivity.
  - apply map_eq. intros k.
    destruct (decide (k = USER_NAME)) as [-> | H2];
      [rewrite !lookup_insert_eq; reflexivity |].
    rewrite !(lookup_insert_ne _ USER_NAME) by congruence.
    destruct (decide (k = IS_LOGIN)) as [-> | H1];
      [rewrite !lookup_insert_eq; reflexivity |].
    repeat rewrite lookup_insert_ne by congruence. reflexivity.
Qed.

Lemma setStorage_getStorage_witness :
  setStorage true "kim" {[ "theme" := "dark" ]} !! "theme" = Some "dark".
Proof.
  rewrite (proj1 (proj2 (proj2
    (setStorage_getStorage true true "kim" "kim" "theme" {[ "theme" := "dark" ]}))))
    by discriminate.
  reflexivity.
Defined.

(** X12: [removeStorage], and with it [logout], forgets the login state
    and nothing else: [getStorage] then returns null for both members, every
    other key keeps its value, what [setStorage] wrote is gone, and a second
    removal changes nothing. *)
Theorem removeStorage_forgets (flag : bool) (name key : string)
    (localStorage : gmap string string) :
  getStorage (removeStorage localStorage) = mkLoginState None None /\
  (key <> IS_LOGIN -> key <> USER_NAME ->
   removeStorage localStorage !! key = localStorage !! key) /\
  removeStorage (setStorage flag name localStorage) = removeStorage localStorage /\
  removeStorage (removeStorage localStorage) = removeStorage localStorage /\
  logout (setStorage flag name localStorage) = removeStorage localStorage.
Proof.
  assert (Hne : USER_NAME <> IS_LOGIN) by discriminate.
  assert (Hrm : forall m : gmap string string,
             removeStorage m = delete USER_NAME (delete IS_LOGIN m)) by reflexivity.
  assert (Hlk : forall (m : gmap string string) k,
             removeStorage m !! k =
             if decide (k = USER_NAME) then None
             else if decide (k = IS_LOGIN) then None else m !! k).
  { intros m k. rewrite Hrm.
    destruct (decide (k = USER_NAME)) as [-> | H2]; [apply lookup_delete_eq |].
    rewrite lookup_delete_ne by congruence.
    destruct (decide (k = IS_LOGIN)) as [-> | H1]; [apply lookup_delete_eq |].
    rewrite lookup_delete_ne by congruence. reflexivity. }
  assert (Hset : removeStorage (setStorage flag name localStorage) =
                 removeStorage localStorage).
  { apply map_eq. intros k. rewrite !Hlk.
    destruct (decide (k = USER_NAME)); [reflexivity |].
    destruct (decide (k = IS_LOGIN)); [reflexivity |].
    unfold setStorage. rewrite !lookup_insert_ne by congruence. reflexivity. }
  split; [| split; [| split; [| split]]].
  - unfold getStorage. rewrite !Hlk. reflexivity.
  - intros H1 H2. rewrite Hlk.
    destruct (decide (key = USER_NAME)); [contradiction |].
    destruct (decide (key = IS_LOGIN)); [contradiction | reflexivity].
  - exact Hset.
  - apply map_eq. intros k. rewrite !Hlk.
    destruct (decide (k = USER_NAME)); [reflexivity |].
    destruct (decide (k = IS_LOGIN)); reflexivity.
  - unfold logout. exact Hset.
Qed.

Lemma removeStorage_forgets_witness :
  removeStorage (setStorage true "kim" {[ "theme" := "dark" ]}) !! "theme" =
    Some "dark".
Proof.
  rewrite (proj1 (proj2
    (removeStorage_forgets true "kim" "theme"
       (setStorage true "kim" {[ "theme" := "dark" ]}))))
    by discriminate.
  reflexivity.
Defined.

End MoreStorage.

(** ** The node picker of the second revision *)

Section MorePicker.
Import Js Browser NodePicker.

(** [Array.prototype.find] returns the first element that matches: no
    node before it has the value looked for. *)
Lemma find_first_value (nodes : list Node) (node : Node) :
  In node nodes ->
  exists earlier n later,
    nodes = earlier ++ n :: later /\
    (forall m, In m earlier -> value m <> value node) /\
    List.find (fun n => bool_decide (value n = value node)) nodes = Some n /\
    value n = value node /\
    (NoDup (List.map value nodes) -> n = node).
Proof.
  induction nodes as [| m nodes IH]; [contradiction |].
  intros Hin. cbn [List.find].
  destruct (decide (value m = value node)) as [E | E].
  - rewrite (bool_decide_eq_true_2 _ E). exists [], m, nodes.
    split; [reflexivity |]. split; [intros ? [] |]. split; [reflexivity |].
    split; [exact E |]. intros Hnd. destruct Hin as [-> | Hin]; [reflexivity |].
    exfalso. cbn in Hnd. apply NoDup_cons in Hnd. destruct Hnd as [Hnin _].
    apply Hnin. rewrite E. apply list_elem_of_In, in_map. exact Hin.
  - rewrite (bool_decide_eq_false_2 _ E).
    destruct Hin as [-> | Hin]; [contradiction |].
    destruct (IH Hin) as (earlier & n & later & Hl & He & Hf & Hv & Hu).
    exists (m :: earlier), n, later.
    split; [rewrite Hl; reflexivity |].
    split; [intros m' [<- | Hm']; [exact E | apply He; exact Hm'] |].
    split; [exact Hf |].
    split; [exact Hv |]. intros Hnd. apply Hu.
    cbn in Hnd. apply NoDup_cons in Hnd. tauto.
Qed.

(** X13: after the node list has loaded, the picker offers the
    placeholder and then one option per node, in order, and choosing the
    value of a listed node shows the figures and colour of the first cached
    node with that value: the cache splits into the nodes before it, none
    of which has that value, the node shown, and the rest (so the node
    itself is shown when values are distinct).  The placeholder clears the
    status; a value the cache does not know leaves the earlier status on
    screen.  When the list cannot be loaded the only option is the failure
    text and the cache keeps the earlier nodes. *)
Theorem node_status_follows_cache (w : World Kont) (p : Picker)
    (nodes : list Node) (node : Node) (selected : string) :
  (fst (loadNodes_resume (NodesReply (Some nodes)) p w) =
     Normal (mkPicker nodes
               (Placeholder ::
                List.map (fun n => NodeChoice (value n) (label n) (status n)) nodes)
               false (nodeStatus p)) /\
   (In node nodes -> value node <> EmptyString ->
    exists earlier n later,
      nodes = earlier ++ n :: later /\
      (forall m, In m earlier -> value m <> value node) /\
      value n = value node /\
      onNodeChange (value node)
        (mkPicker nodes
           (Placeholder ::
            List.map (fun n => NodeChoice (value n) (label n) (status n)) nodes)
           false (nodeStatus p)) =
      mkPicker nodes
        (Placeholder ::
         List.map (fun n => NodeChoice (value n) (label n) (status n)) nodes)
        false (StatusOf n (status_color (cpu n))) /\
      (NoDup (List.map value nodes) -> n = node))) /\
  (nodeStatus (onNodeChange EmptyString p) = NoStatus /\
   (selected <> EmptyString ->
    (forall n, In n (nodesData p) -> value n <> selected) ->
    onNodeChange selected p = p)) /\
  (fst (loadNodes_resume NodesNotJson p w) =
     Normal (mkPicker (nodesData p) [LoadFailedOption] (selectDisabled p)
                      (nodeStatus p)) /\
   forall message,
     fst (loadNodes_resume (NodesUnreachable message) p w) =
       Normal (mkPicker (nodesData p) [LoadFailedOption] (selectDisabled p)
                        (nodeStatus p))).
Proof.
  split; [split; [reflexivity |] | split; [split; [reflexivity |] | split; reflexivity]].
  - intros Hin Hne.
    destruct (find_first_value nodes node Hin)
      as (earlier & n & later & Hl & He & Hf & Hv & Hu).
    exists earlier, n, later.
    split; [exact Hl |]. split; [exact He |]. split; [exact Hv |].
    split; [| exact Hu].
    unfold onNodeChange. rewrite (truthy_nonempty _ Hne). cbn [nodesData].
    rewrite Hf. reflexivity.
  - intros Hne Hnone. unfold onNodeChange. rewrite (truthy_nonempty _ Hne).
    replace (List.find (fun n => bool_decide (value n = selected)) (nodesData p))
      with (@None Node); [reflexivity |].
    symmetry. induction (nodesData p) as [| m l IH]; [reflexivity |].
    cbn [List.find].
    rewrite (bool_decide_eq_false_2 _ (Hnone m (or_introl eq_refl))).
    apply IH. intros n Hn. apply Hnone. right. exact Hn.
Qed.

(** With two nodes of one value in the cache, the first is the one shown. *)
Example onNodeChange_shows_first_of_two :
  nodeStatus
    (onNodeChange "pve2"
       (mkPicker [mkNode "pve1" "pve1 (8C)" "online" 12 40 13 32 3;
                  mkNode "pve2" "pve2 (8C)" "online" 91 70 22 32 9;
                  mkNode "pve2" "pve2 (spare)" "online" 10 20 6 32 1]
                 [] false NoStatus)) =
  StatusOf (mkNode "pve2" "pve2 (8C)" "online" 91 70 22 32 9) "#ef4444".
Proof. reflexivity. Qed.

Lemma node_status_follows_cache_witness :
  exists earlier n later,
    [mkNode "pve1" "pve1 (8C)" "online" 12 40 13 32 3;
     mkNode "pve2" "pve2 (8C)" "online" 91 70 22 32 9;
     mkNode "pve2" "pve2 (spare)" "online" 10 20 6 32 1] = earlier ++ n :: later /\
    (forall m, In m earlier -> value m <> "pve2") /\
    value n = "pve2" /\
    onNodeChange "pve2"
      (mkPicker [mkNode "pve1" "pve1 (8C)" "online" 12 40 13 32 3;
                 mkNode "pve2" "pve2 (8C)" "online" 91 70 22 32 9;
                 mkNode "pve2" "pve2 (spare)" "online" 10 20 6 32 1]
         (Placeholder ::
          List.map (fun n => NodeChoice (value n) (label n) (status n))
            [mkNode "pve1" "pve1 (8C)" "online" 12 40 13 32 3;
             mkNode "pve2" "pve2 (8C)" "online" 91 70 22 32 9;
             mkNode "pve2" "pve2 (spare)" "online" 10 20 6 32 1])
         false NoStatus) =
    mkPicker [mkNode "pve1" "pve1 (8C)" "online" 12 40 13 32 3;
              mkNode "pve2" "pve2 (8C)" "online" 91 70 22 32 9;
              mkNode "pve2" "pve2 (spare)" "online" 10 20 6 32 1]
      (Placeholder ::
       List.map (fun n => NodeChoice (value n) (label n) (status n))
         [mkNode "pve1" "pve1 (8C)" "online" 12 40 13 32 3;
          mkNode "pve2" "pve2 (8C)" "online" 91 70 22 32 9;
          mkNode "pve2" "pve2 (spare)" "online" 10 20 6 32 1])
      false (StatusOf n (status_color (cpu n))) /\
    (NoDup (List.map value
              [mkNode "pve1" "pve1 (8C)" "online" 12 40 13 32 3;
               mkNode "pve2" "pve2 (8C)" "online" 91 70 22 32 9;
               mkNode "pve2" "pve2 (spare)" "online" 10 20 6 32 1]) ->
     n = mkNode "pve2" "pve2 (spare)" "online" 10 20 6 32 1).
Proof.
  apply (proj2 (proj1 (node_status_follows_cache (initial_world [])
           (mkPicker [] [] true NoStatus)
           [mkNode "pve1" "pve1 (8C)" "online" 12 40 13 32 3;
            mkNode "pve2" "pve2 (8C)" "online" 91 70 22 32 9;
            mkNode "pve2" "pve2 (spare)" "online" 10 20 6 32 1]
           (mkNode "pve2" "pve2 (spare)" "online" 10 20 6 32 1) EmptyString))).
  - right; right; left; reflexivity.
  - discriminate.
Defined.

End MorePicker.

(** ** Bars, unchecked statuses and the encoded key *)

Section MoreEdges.
Import Metrics Js Browser Observe Watch.
Local Open Scope Q_scope.





Local Close Scope Q_scope.

(** X15: the second revision and the earlier one do not look at the
    status of the answer to a VM-list request: a refusal is handled exactly
    like an OK answer with the same body.  So a refusal whose body is a JSON
    object without a VM array is shown as an empty fleet with zero counters
    and nothing is logged, where the first revision logs the refusal and
    shows the failure text. *)
Theorem unchecked_status_shows_empty_fleet (wm : World Manual.Kont)
    (wl : World Legacy.Kont) (wa : World Auto.Kont) (idm idl ida : nat)
    (pm : Pending Manual.Kont) (pl : Pending Legacy.Kont)
    (pa : Pending Auto.Kont) (cm ca text : string) (json : Payload) :
  find_pending idm wm = Some pm -> p_kont pm = Manual.AfterVmsFetch cm ->
  find_pending idl wl = Some pl -> p_kont pl = Legacy.AfterVmsFetch ->
  find_pending ida wa = Some pa -> p_kont pa = Auto.AfterVmsFetch ca ->
  (deliver Manual.resume idm (Reply false text json) wm =
     deliver Manual.resume idm (Reply true text json) wm /\
   deliver Legacy.resume idl (Reply false text json) wl =
     deliver Legacy.resume idl (Reply true text json) wl) /\
  (deliver Manual.resume idm (Reply false text OtherObject) wm =
     mkWorld (set_stats (mkStats 0 0 0 0) (set_vmList NoVms (state wm)))
       (answers wm) (trace wm) (inflight (remove_pending idm wm)) (next_id wm) /\
   deliver Legacy.resume idl (Reply false text OtherObject) wl =
     mkWorld (set_stats (mkStats 0 0 0 0) (set_vmList NoVms (state wl)))
       (answers wl) (trace wl) (inflight (remove_pending idl wl)) (next_id wl) /\
   deliver Auto.resume ida (Reply false text OtherObject) wa =
     mkWorld (set_vmList LoadFailed (state wa)) (answers wa)
       (trace wa ++ [ConsoleError "VM 목록 로드 실패:" text])
       (inflight (remove_pending ida wa)) (next_id wa)).
Proof.
  intros Hm Hkm Hl Hkl Ha Hka.
  rewrite (auto_vms_response wa ida pa ca _ Ha Hka).
  rewrite !(legacy_vms_response wl idl pl _ Hl Hkl).
  unfold deliver. rewrite Hm, Hkm. cbn [Manual.resume].
  destruct wm as [stm ansm trm infm nidm], wl as [stl ansl trl infl nidl],
    wa as [sta ansa tra infa nida].
  repeat split; destruct json; reflexivity.
Qed.

Lemma unchecked_status_shows_empty_fleet_witness :
  vmList (state (deliver Legacy.resume 0 (Reply false "Internal Server Error" OtherObject)
                   (run Legacy.loadVms (initial_world [])))) = NoVms.
Proof.
  pose proof (unchecked_status_shows_empty_fleet
                (run Manual.loadVms
                   (mkWorld (set_clusterSelect "cluster_a" initial_state) [] [] [] 0))
                (run Legacy.loadVms (initial_world []))
                (run Auto.loadVms
                   (mkWorld (set_clusterSelect "cluster_a" initial_state) [] [] [] 0))
                0 0 0
                (mkPending 0 (vms_request "cluster_a") (Manual.AfterVmsFetch "cluster_a"))
                (mkPending 0 (mkRequest GET "/provision/api/vms" NoBody)
                           Legacy.AfterVmsFetch)
                (mkPending 0 (vms_request "cluster_a") (Auto.AfterVmsFetch "cluster_a"))
                "cluster_a" "cluster_a" "Internal Server Error" OtherObject
                eq_refl eq_refl eq_refl eq_refl eq_refl eq_refl) as H.
  rewrite (proj1 (proj2 (proj2 H))). reflexivity.
Defined.

(** X16: the first revision adds the URI-encoded SSH key to what it
    sends, for a creation and for a reconfiguration alike, and leaves every
    other field of the form as it is.  A form without the key is sent with
    the text undefined in its place; the second revision sends the form
    untouched. *)
Theorem first_revision_sends_encoded_key (wa : World Auto.Kont)
    (wm : World Manual.Kont) (form : gmap string string) (N : Z) (key : string) :
  isCreating (state wa) = false ->
  truthy (form !! "cluster_name") = true ->
  parseInt (form !! "resize") = Some N ->
  current_disk wa < N ->
  exists formData,
    requests (trace (run (Auto.handleVmCreate form) wa)) =
      requests (trace wa) ++ [create_request formData] /\
    requests (trace (run (Auto.configForm_submit form) wa)) =
      requests (trace wa) ++ [config_request formData] /\
    formData !! "ssh_public_key" =
      Some (encodeURIComponent (ToString (form !! "ssh_public_key"))) /\
    (form !! "ssh_public_key" = None ->
     formData !! "ssh_public_key" = Some "undefined") /\
    (key <> "ssh_public_key" -> formData !! key = form !! key) /\
    requests (trace (run (Manual.configForm_onsubmit form) wm)) =
      requests (trace wm) ++ [config_request form].
Proof.
  intros Hflag Hcluster HN Hgt. exists (encoded form).
  rewrite auto_handleVmCreate_run, Hflag, Hcluster.
  rewrite (auto_configForm_submit_run wa form N HN).
  destruct (Z.ltb_spec N (current_disk wa)); [lia |].
  destruct (Z.eqb_spec N (current_disk wa)); [lia |].
  rewrite manual_configForm_onsubmit_run.
  cbn [trace create_sent config_sent]. rewrite app_nil_l, !requests_sent.
  split; [reflexivity |]. split; [reflexivity |].
  split; [apply lookup_insert_eq |].
  split; [intros Hmiss; unfold encoded; rewrite lookup_insert_eq, Hmiss; reflexivity |].
  split; [apply encoded_lookup | reflexivity].
Qed.

Lemma first_revision_sends_encoded_key_witness :
  exists formData,
    requests (trace (run (Auto.handleVmCreate
                            {[ "cluster_name" := "cluster_a"; "resize" := "25" ]})
                         page_with_disk_20)) =
      requests (trace (@page_with_disk_20 Auto.Kont)) ++ [create_request formData] /\
    requests (trace (run (Auto.configForm_submit
                            {[ "cluster_name" := "cluster_a"; "resize" := "25" ]})
                         page_with_disk_20)) =
      requests (trace (@page_with_disk_20 Auto.Kont)) ++ [config_request formData] /\
    formData !! "ssh_public_key" =
      Some (encodeURIComponent
              (ToString (({[ "cluster_name" := "cluster_a"; "resize" := "25" ]}
                           : gmap string string) !! "ssh_public_key"))) /\
    (({[ "cluster_name" := "cluster_a"; "resize" := "25" ]}
        : gmap string string) !! "ssh_public_key" = None ->
     formData !! "ssh_public_key" = Some "undefined") /\
    ("resize" <> "ssh_public_key" ->
     formData !! "resize" =
       ({[ "cluster_name" := "cluster_a"; "resize" := "25" ]}
          : gmap string string) !! "resize") /\
    requests (trace (run (Manual.configForm_onsubmit
                            {[ "cluster_name" := "cluster_a"; "resize" := "25" ]})
                         page_with_disk_20)) =
      requests (trace (@page_with_disk_20 Manual.Kont)) ++
      [config_request {[ "cluster_name" := "cluster_a"; "resize" := "25" ]}].
Proof.
  apply (first_revision_sends_encoded_key page_with_disk_20 page_with_disk_20
           {[ "cluster_name" := "cluster_a"; "resize" := "25" ]} 25 "resize");
    vm_compute; reflexivity.
Defined.

End MoreEdges.
